(** * personal-performance-metrics: the assemble / preview / confirm / publish pipeline

    A shallow embedding of [printTable], [publishMetrics] and [confirm] of the
    command-line tool (package [main]), with the properties of its
    specification stated over it.

    - [float64] is Rocq's primitive binary64 [float]; [math.Round] is written
      out on the sign / mantissa / exponent decomposition.
    - Go maps are [gmap]s.  A [range] over a map visits every entry once, in
      an order the language leaves open and that may change from one [range]
      statement to the next: each [range] statement of the source gets an
      order of its own from the [World].
    - Output, reads of standard input and the CloudWatch call are recorded as
      a trace of [Event]s; what standard input, [Render] and the remote
      service answer is part of the [World].
    - The callers [run], [loadConfig], [loadData] and [main] run on a [Host],
      which holds the flags, the files and the AWS configuration loader;
      [yaml.Unmarshal] is a parameter.  The earlier version of the tool
      ([main.go]) is embedded in the module [Legacy]. *)

From Stdlib Require Import ZArith String Ascii List DecimalString.
From Stdlib Require Import PrimFloat FloatOps SpecFloat Uint63.
From stdpp Require Import gmap strings list fin_maps.

(** * Part I: the program *)

(** ** Library functions of Go used by the program *)

Module strings.

(** ASCII white space, as [unicode.IsSpace] has it below U+0080. *)
Definition isSpace (c : ascii) : bool :=
  let n := nat_of_ascii c in
  ((9 <=? n) && (n <=? 13) || (n =? 32))%nat.

Fixpoint TrimLeft (s : string) : string :=
  match s with
  | EmptyString => EmptyString
  | String c s' => if isSpace c then TrimLeft s' else s
  end.

Fixpoint TrimRight (s : string) : string :=
  match s with
  | EmptyString => EmptyString
  | String c s' =>
      match TrimRight s' with
      | EmptyString => if isSpace c then EmptyString else String c EmptyString
      | t => String c t
      end
  end.

(** [strings.TrimSpace]: leading and trailing white space removed. *)
Definition TrimSpace (s : string) : string := TrimRight (TrimLeft s).

Definition lower (c : ascii) : ascii :=
  let n := nat_of_ascii c in
  if ((65 <=? n) && (n <=? 90))%nat then ascii_of_nat (n + 32) else c.

(** [strings.ToLower], on ASCII letters; other bytes are kept. *)
Fixpoint ToLower (s : string) : string :=
  match s with
  | EmptyString => EmptyString
  | String c s' => String (lower c) (ToLower s')
  end.

End strings.

(** The line feed, Go's ["\n"]. *)
Definition nl : string := String (ascii_of_nat 10) EmptyString.

Module math.

(** [math.Round]: the nearest integer, halves rounded away from zero;
    zeros, infinities and NaN are returned as they are.  A finite non-zero
    [x] is [(-1)^s * m * 2^e]; with [e >= 0] it is an integer already. *)
Definition Round (x : float) : float :=
  match Prim2SF x with
  | S754_finite s m (Zneg k) =>
      let d := Z.pow_pos 2 k in
      let q := (Zpos m / d)%Z in
      let r := (Zpos m mod d)%Z in
      let n := if (d <=? 2 * r)%Z then (q + 1)%Z else q in
      let a := PrimFloat.of_uint63 (Uint63.of_Z n) in
      if s then PrimFloat.opp a else a
  | _ => x
  end.

End math.

(** ** Data model *)

(** Go's [error], by its message. *)
Definition error : Type := string.

(** [time.Time], as an instant on some clock. *)
Definition Time : Type := Z.

(** MetricMappingDimensions is the definition for the dimensions associated
    to the metric. *)
Record MetricMappingDimensions : Type := {
  dim_Name : string;
  dim_Value : string
}.

(** MetricMapping is the configuration data for the metrics. *)
Record MetricMapping : Type := {
  mm_Name : string;
  mm_Dimensions : list MetricMappingDimensions
}.

(** Config provides global configuration. *)
Record Config : Type := {
  Region : string;
  Profile : string;
  SkipPublish : bool;
  MetricNamespace : string;
  MetricMappings : gmap string MetricMapping
}.

(** PerformanceData is the data being captured and sent to AWS. *)
Abbreviation PerformanceData := (gmap string float).

(** The zero value of [MetricMapping], which indexing [MetricMappings] with
    an absent key yields. *)
Definition zeroMetricMapping : MetricMapping :=
  {| mm_Name := ""; mm_Dimensions := [] |}.

(** *** The CloudWatch SDK's types ([cloudwatch/types]) *)

Inductive StandardUnit : Type :=
| StandardUnitSeconds
| StandardUnitBytes
| StandardUnitPercent
| StandardUnitCount
| StandardUnitNone.

Record Dimension : Type := {
  Dimension_Name : string;
  Dimension_Value : string
}.

Record MetricDatum : Type := {
  MetricName : string;
  Value : float;
  Timestamp : Time;
  Unit : StandardUnit;
  Dimensions : list Dimension
}.

Record PutMetricDataInput : Type := {
  Namespace : string;
  MetricData : list MetricDatum
}.

(** ** The world the program runs in *)

(** What the program does to the outside, in order. *)
Inductive Event : Type :=
| Stdout (text : string)                       (* fmt.Println, fmt.Printf *)
| TableRender (tableData : list (list string)) (* pterm's Render *)
| StdinRead                                    (* reader.ReadString('\n') *)
| PutMetricDataCall (input : PutMetricDataInput). (* client.PutMetricData *)

(** The order in which one [range] statement visits a map. *)
Definition RangeOrder : Type := PerformanceData -> list (string * float).

(** Every entry is visited exactly once. *)
Definition visits_each_once (o : RangeOrder) : Prop :=
  forall data : PerformanceData, o data ≡ₚ map_to_list data.

Record World : Type := {
  (** the flag [--non-interactive] *)
  cliNoninteractive : bool;
  (** the [range] of [printTable] and the [range] of [publishMetrics] *)
  rangeTable : RangeOrder;
  rangePublish : RangeOrder;
  (** [timeNow i] is what the call number [i] of [time.Now()] returns *)
  timeNow : nat -> Time;
  (** what [Render] returns *)
  renderErr : option error;
  (** what the remote service answers to a request *)
  putMetricData : PutMetricDataInput -> option error;
  (** what the successive calls of [ReadString] return: a line, with its
      line feed, or an error; past the end of the list the stream is closed
      and the read fails with [io.EOF] *)
  stdin : list (string + error)
}.

Definition world_ok (w : World) : Prop :=
  visits_each_once (rangeTable w) /\ visits_each_once (rangePublish w).

Definition EOF : error := "EOF".

(** ** The functions of the program *)

Section Program.

(** [fmt.Sprint] on a [float64]: the text of a number. *)
Variable Sprint : float -> string.

(** The power of ten the values are rounded at.  The source multiplies and
    divides by the literal [100], see [current] below; the literal is a
    parameter so that the properties also cover the legacy format, see
    [legacy]. *)
Variable scale : float.

(** The [Dimensions] cell of a row: [dimensions += fmt.Sprintf("%s=%s ", ...)]
    over the dimensions of the mapping. *)
Definition dimensionsCell (ds : list MetricMappingDimensions) : string :=
  fold_left (fun dimensions v => dimensions +:+ (dim_Name v +:+ "=" +:+ dim_Value v +:+ " "))
    ds "".

Definition tableHeader : list string := ["Metric name"; "Value"; "Dimensions"].

(** The body of the loop of [printTable]: one row per visited entry, read
    through [config.MetricMappings[key]], the zero mapping when absent. *)
Definition appendRow (config : Config) (tableData : list (list string))
    (kv : string * float) : list (list string) :=
  let '(key, val) := kv in
  let mapping := default zeroMetricMapping (MetricMappings config !! key) in
  let dimensions := dimensionsCell (mm_Dimensions mapping) in
  tableData ++ [[mm_Name mapping; Sprint (math.Round (val * scale) / scale)%float; dimensions]].

Definition tableDataOf (w : World) (data : PerformanceData) (config : Config)
    : list (list string) :=
  fold_left (appendRow config) (rangeTable w data) [tableHeader].

(** printTable will print a table showing all the metrics which are going
    to be pushed.  (The [fmt.Sprint] on the style and the header, whose
    result the source drops, has no effect.)  The result is what [Render]
    returns and the trace. *)
Definition printTable (w : World) (data : PerformanceData) (config : Config)
    : option error * list Event :=
  let tableData := tableDataOf w data config in
  (renderErr w,
   [Stdout ("Metrics to be published:" +:+ nl); TableRender tableData]).

(** The inner loop of [publishMetrics]: the dimensions of the mapping,
    appended one by one.  The loop variable is one per iteration (Go 1.22),
    so the pointers [&dimension.Name] and [&dimension.Value] of an entry
    keep the texts of its own dimension. *)
Definition dimensionsOf (metric : MetricMapping) : list Dimension :=
  fold_left
    (fun ds dimension =>
       ds ++ [{| Dimension_Name := dim_Name dimension;
                 Dimension_Value := dim_Value dimension |}])
    (mm_Dimensions metric) [].

(** The body of the outer loop of [publishMetrics]: an entry without a
    mapping is passed over ([continue]); the others append a datum, stamped
    with the next reading of the clock. *)
Definition appendDatum (w : World) (config : Config)
    (metricData : list MetricDatum) (kv : string * float) : list MetricDatum :=
  let '(key, value) := kv in
  match MetricMappings config !! key with
  | None => metricData
  | Some metric =>
      let metricValue := (math.Round (value * scale) / scale)%float in
      let metricDatum :=
        {| MetricName := mm_Name metric;
           Value := metricValue;
           Timestamp := timeNow w (length metricData);
           Unit := StandardUnitCount;
           Dimensions := dimensionsOf metric |} in
      metricData ++ [metricDatum]
  end.

Definition metricDataOf (w : World) (data : PerformanceData) (config : Config)
    : list MetricDatum :=
  fold_left (appendDatum w config) (rangePublish w data) [].

Definition invalidInput : string :=
  "Invalid input. Please enter 'y' or 'n'." +:+ nl.

Definition readFailure (err : error) : string :=
  "Error reading input: " +:+ err +:+ nl.

(** confirm will accept input for a prompt.  The loop of the source runs
    once per read; it ends at the first accepted token or failed read. *)
Fixpoint confirm (prompt : string) (input : list (string + error))
    : bool * list Event :=
  let asked := [Stdout (prompt +:+ " [y/n]: "); StdinRead] in
  match input with
  | [] => (false, asked ++ [Stdout (readFailure EOF)])
  | inr err :: _ => (false, asked ++ [Stdout (readFailure err)])
  | inl response :: rest =>
      let response := strings.ToLower (strings.TrimSpace response) in
      if String.eqb response "y" || String.eqb response "yes" then (true, asked)
      else if String.eqb response "n" || String.eqb response "no" then (false, asked)
      else
        let '(answer, out) := confirm prompt rest in
        (answer, asked ++ [Stdout invalidInput] ++ out)
  end.

Definition skipped : string :=
  "You have elected to not publish these metrics, exiting..." +:+ nl.
Definition published : string := "Metrics published successfully!" +:+ nl.
Definition cancelled : string := "Operation cancelled." +:+ nl.

(** The request of a run. *)
Definition inputOf (w : World) (data : PerformanceData) (config : Config)
    : PutMetricDataInput :=
  {| Namespace := MetricNamespace config;
     MetricData := metricDataOf w data config |}.

(** [*cliNoninteractive || confirm("Do you want to proceed?")]: the right
    operand is evaluated only when the flag is off. *)
Definition gate (w : World) : bool * list Event :=
  if cliNoninteractive w then (true, [])
  else confirm "Do you want to proceed?" (stdin w).

(** publishMetrics will publish the metrics to the nominated AWS account.
    The result is the returned [error] ([None] for [nil]) and the trace. *)
Definition publishMetrics (w : World) (data : PerformanceData) (config : Config)
    : option error * list Event :=
  let '(err, out) := printTable w data config in
  match err with
  | Some e => (Some e, out)
  | None =>
      if SkipPublish config then (None, out ++ [Stdout skipped])
      else
        let input := inputOf w data config in
        let '(proceed, asked) := gate w in
        if proceed then
          match putMetricData w input with
          | Some e => (Some e, out ++ asked ++ [PutMetricDataCall input])
          | None =>
              (None, out ++ asked ++ [PutMetricDataCall input; Stdout published])
          end
        else (None, out ++ asked ++ [Stdout cancelled])
  end.

End Program.

(** The literal of the source: values are rounded at two decimals. *)
Definition current : float := 100%float.

(** Modelled from the spec: the literal of the legacy format, which rounds
    at one decimal; the source file of that format is not available. *)
Definition legacy : float := 10%float.

(** * Part II: the vocabulary of the properties *)

(** ** What the loops compute *)

Section Descriptions.

Variable Sprint : float -> string.
Variable scale : float.

(** The value of a row and of a datum: [math.Round(v*scale) / scale]. *)
Definition rounded (v : float) : float := (math.Round (v * scale) / scale)%float.

Definition pairText (v : MetricMappingDimensions) : string :=
  dim_Name v +:+ "=" +:+ dim_Value v +:+ " ".

Definition rowOf (config : Config) (kv : string * float) : list string :=
  let mapping := default zeroMetricMapping (MetricMappings config !! kv.1) in
  [mm_Name mapping; Sprint (rounded kv.2);
   foldr (fun v s => pairText v +:+ s) "" (mm_Dimensions mapping)].

Definition dimensionOf (d : MetricMappingDimensions) : Dimension :=
  {| Dimension_Name := dim_Name d; Dimension_Value := dim_Value d |}.

Definition datumOf (w : World) (i : nat) (metric : MetricMapping) (v : float)
    : MetricDatum :=
  {| MetricName := mm_Name metric;
     Value := rounded v;
     Timestamp := timeNow w i;
     Unit := StandardUnitCount;
     Dimensions := dimensionOf <$> mm_Dimensions metric |}.

(** Whether a key has a mapping. *)
Definition mapped (config : Config) (kv : string * float) : Prop :=
  is_Some (MetricMappings config !! kv.1).

#[global] Instance mapped_dec (config : Config) (kv : string * float) :
  Decision (mapped config kv).
Proof. unfold mapped. apply _. Defined.

(** The datum of each entry of [l], the clock read from call [i] on. *)
Fixpoint datumsFrom (w : World) (config : Config) (i : nat)
    (l : list (string * float)) : list MetricDatum :=
  match l with
  | [] => []
  | kv :: l =>
      match MetricMappings config !! kv.1 with
      | Some metric => datumOf w i metric kv.2 :: datumsFrom w config (S i) l
      | None => datumsFrom w config i l
      end
  end.

(** The record that the entry [kv] of the data gets. *)
Definition recordFor (config : Config) (kv : string * float) (d : MetricDatum)
    : Prop :=
  exists metric,
    MetricMappings config !! kv.1 = Some metric
    /\ MetricName d = mm_Name metric
    /\ Value d = (math.Round (kv.2 * scale) / scale)%float
    /\ Unit d = StandardUnitCount
    /\ Dimensions d = dimensionOf <$> mm_Dimensions metric.

(** The output of [printTable]. *)
Definition preview (w : World) (data : PerformanceData) (config : Config)
    : list Event :=
  [Stdout ("Metrics to be published:" +:+ nl);
   TableRender (tableDataOf Sprint scale w data config)].

(** The names in the first column of the data rows of the table, and the
    names of the records of the batch, each in its order. *)
Definition previewNames (w : World) (data : PerformanceData) (config : Config)
    : list string :=
  (fun row => hd "" row) <$> tail (tableDataOf Sprint scale w data config).

Definition batchNames (w : World) (data : PerformanceData) (config : Config)
    : list string :=
  MetricName <$> metricDataOf scale w data config.

(** The name, the value and the dimensions of a record. *)
Definition summary (d : MetricDatum) : string * float * list Dimension :=
  (MetricName d, Value d, Dimensions d).

(** The dimension cell in the words of the specification: the [name=value]
    pairs joined by single spaces. *)
Definition spaceJoined (ds : list MetricMappingDimensions) : string :=
  String.concat " " ((fun d => dim_Name d +:+ "=" +:+ dim_Value d) <$> ds).

End Descriptions.

(** ** Reading a trace *)

(** The requests sent to the remote service, in order. *)
Definition putCalls (tr : list Event) : list PutMetricDataInput :=
  omap (fun e => match e with PutMetricDataCall input => Some input | _ => None end) tr.

#[global] Instance Event_StdinRead_dec (e : Event) : Decision (e = StdinRead).
Proof. destruct e; (left; reflexivity) || (right; discriminate). Defined.

(** The number of reads of standard input. *)
Definition reads (tr : list Event) : nat :=
  length (filter (fun e => e = StdinRead) tr).

(** What [confirm] prints before each read. *)
Definition question (prompt : string) : string := prompt +:+ " [y/n]: ".

(** The events [confirm] can produce. *)
Inductive gateEvent (prompt : string) : Event -> Prop :=
| gate_question : gateEvent prompt (Stdout (question prompt))
| gate_read : gateEvent prompt StdinRead
| gate_invalid : gateEvent prompt (Stdout invalidInput)
| gate_failure err : gateEvent prompt (Stdout (readFailure err)).

(** The run is approved: the flag is on, or [confirm] returns [true]. *)
Definition approved (w : World) : Prop :=
  cliNoninteractive w = true
  \/ (confirm "Do you want to proceed?" (stdin w)).1 = true.



(** ** Concrete runs *)

(** The integer part of the magnitude of a finite number. *)
Definition truncN (x : float) : N :=
  match Prim2SF x with
  | S754_finite _ m (Zneg k) => N.shiftr (Npos m) (Npos k)
  | S754_finite _ m (Zpos k) => N.shiftl (Npos m) (Npos k)
  | S754_finite _ m Z0 => Npos m
  | _ => 0%N
  end.

Definition digits (n : N) : string := NilZero.string_of_uint (N.to_uint n).

(** A stand-in for [fmt.Sprint] where a concrete function is needed: the
    decimal text of a number of at most two decimals ([1.25], [2], [-0.5]).
    The properties below hold for any function. *)
Definition decimalText (v : float) : string :=
  let n := truncN (math.Round (PrimFloat.abs v * 100)) in
  let frac := (n mod 100)%N in
  (if PrimFloat.ltb v 0 then "-" else "")
  +:+ digits (n / 100)
  +:+ (if (frac =? 0)%N then ""
       else "." +:+ digits (frac / 10)
            +:+ (if (frac mod 10 =? 0)%N then "" else digits (frac mod 10))).

(** Every [range] in the order of [map_to_list]. *)
Definition inOrder : RangeOrder := fun data => map_to_list data.

(** Every [range] in the opposite order. *)
Definition inReverse : RangeOrder := fun data => reverse (map_to_list data).

(** A world where [Render] and the remote service succeed and the clock
    ticks once per reading. *)
Definition world (noninteractive : bool) (table publish : RangeOrder)
    (input : list (string + error)) : World :=
  {| cliNoninteractive := noninteractive;
     rangeTable := table;
     rangePublish := publish;
     timeNow := fun i => Z.of_nat i;
     renderErr := None;
     putMetricData := fun _ => None;
     stdin := input |}.

(** A non-interactive run; an interactive run on given input; a run whose
    two [range] statements visit the data in opposite orders. *)
Definition batchWorld : World := world true inOrder inOrder [].
Definition promptWorld (input : list (string + error)) : World :=
  world false inOrder inOrder input.
Definition shuffledWorld : World := world true inOrder inReverse [].

(** The data and the mappings of the example of the specification. *)
Definition exampleData : PerformanceData :=
  {[ "a" := 1.25%float; "b" := 2%float ]}.

Definition goalFitness : MetricMappingDimensions :=
  {| dim_Name := "Goal"; dim_Value := "Fitness" |}.

Definition exampleConfig : Config :=
  {| Region := "ap-southeast-2";
     Profile := "my-aws-profile";
     SkipPublish := false;
     MetricNamespace := "Personal/Performance";
     MetricMappings :=
       {[ "a" := {| mm_Name := "A"; mm_Dimensions := [] |};
          "b" := {| mm_Name := "B"; mm_Dimensions := [goalFitness] |} ]} |}.

(** The same with skip-publish set. *)
Definition skipConfig : Config :=
  {| Region := Region exampleConfig;
     Profile := Profile exampleConfig;
     SkipPublish := true;
     MetricNamespace := MetricNamespace exampleConfig;
     MetricMappings := MetricMappings exampleConfig |}.

(** Data with a key the mappings do not have, and data with no other key. *)
Definition strayData : PerformanceData :=
  {[ "a" := 1.25%float; "c" := 3%float ]}.
Definition unmappedData : PerformanceData := {[ "c" := 3%float ]}.

(** * Part II, continued: the callers *)

(** ** [run], [loadConfig], [loadData] and [main] *)

(** The options [run] hands to [config.LoadDefaultConfig]. *)
Inductive LoadOption : Type :=
| WithSharedConfigProfile (profile : string)
| WithRegion (region : string).

(** What [run] and [main] do to the outside: they read files, load the AWS
    configuration and log; the events of [publishMetrics] and of [fmt] are
    carried as they are. *)
Inductive RunEvent : Type :=
| ReadFile (name : string)                   (* os.ReadFile *)
| LoadDefaultConfig (opts : list LoadOption) (* config.LoadDefaultConfig *)
| Inner (e : Event)                          (* fmt and publishMetrics *)
| LogFatal (err : error).                    (* log.Fatal *)

(** The machine [run] starts on. *)
Record Host : Type := {
  (** the flags [--region], [--profile] and [--skip-publish], with their
      environment variables, as [kingpin.Parse] leaves them *)
  cliRegion : string;
  cliProfile : string;
  cliSkipPublish : bool;
  (** [os.ReadFile]: the bytes of a file, or an error *)
  readFile : string -> string + error;
  (** what [config.LoadDefaultConfig] returns for the options *)
  loadDefaultConfig : list LoadOption -> option error;
  (** the world in which the client made from the loaded configuration
      publishes *)
  worldOf : list LoadOption -> World
}.

(** The zero value of [Config]. *)
Definition zeroConfig : Config :=
  {| Region := ""; Profile := ""; SkipPublish := false;
     MetricNamespace := ""; MetricMappings := ∅ |}.

(** The assignments [run] makes to the fields of [configInput]. *)
Definition setRegion (c : Config) (region : string) : Config :=
  {| Region := region; Profile := Profile c; SkipPublish := SkipPublish c;
     MetricNamespace := MetricNamespace c; MetricMappings := MetricMappings c |}.

Definition setProfile (c : Config) (profile : string) : Config :=
  {| Region := Region c; Profile := profile; SkipPublish := SkipPublish c;
     MetricNamespace := MetricNamespace c; MetricMappings := MetricMappings c |}.

Definition setSkipPublish (c : Config) (skip : bool) : Config :=
  {| Region := Region c; Profile := Profile c; SkipPublish := skip;
     MetricNamespace := MetricNamespace c; MetricMappings := MetricMappings c |}.

Definition regionNotSet : error := "AWS_REGION environment variable not set".
Definition profileNotSet : error := "AWS_PROFILE environment variable not set".

Definition awsConfigFailure (err : error) : string :=
  "Error creating AWS config: " +:+ err +:+ nl.

Section Caller.

Variable Sprint : float -> string.
Variable scale : float.

(** [yaml.Unmarshal] into a [Config] and into a [PerformanceData]: what it
    leaves in the target, and its error. *)
Variable unmarshalConfig : string -> Config * option error.
Variable unmarshalData : string -> PerformanceData * option error.

(** loadConfig will load the configuration file. *)
Definition loadConfig (h : Host) : (Config * option error) * list RunEvent :=
  match readFile h "config.yml" with
  | inr err => ((zeroConfig, Some err), [ReadFile "config.yml"])
  | inl file => (unmarshalConfig file, [ReadFile "config.yml"])
  end.

(** lodaData will load the data file. *)
Definition loadData (h : Host) : (PerformanceData * option error) * list RunEvent :=
  match readFile h "data.yml" with
  | inr err => ((∅, Some err), [ReadFile "data.yml"])
  | inl file => (unmarshalData file, [ReadFile "data.yml"])
  end.

(** The options: the profile and then the region, each when it is not
    empty. *)
Definition optsOf (configInput : Config) : list LoadOption :=
  let opts := [] in
  let opts :=
    if String.eqb (Profile configInput) "" then opts
    else opts ++ [WithSharedConfigProfile (Profile configInput)] in
  let opts :=
    if String.eqb (Region configInput) "" then opts
    else opts ++ [WithRegion (Region configInput)] in
  opts.

(** The end of [run], from the loading of the data on. *)
Definition runLoaded (h : Host) (configInput : Config) (out : list RunEvent)
    : option error * list RunEvent :=
  let '((dataInput, err), read) := loadData h in
  match err with
  | Some e => (Some e, out ++ read)
  | None =>
      let opts := optsOf configInput in
      match loadDefaultConfig h opts with
      | Some e =>
          (Some e,
           out ++ read
           ++ [LoadDefaultConfig opts; Inner (Stdout (awsConfigFailure e))])
      | None =>
          let '(err, published) :=
            publishMetrics Sprint scale (worldOf h opts) dataInput configInput in
          (err, out ++ read ++ [LoadDefaultConfig opts] ++ (Inner <$> published))
      end
  end.

(** run will execute the main logic component for error handling. *)
Definition run (h : Host) : option error * list RunEvent :=
  let '((configInput, err), out) := loadConfig h in
  match err with
  | Some e => (Some e, out)
  | None =>
      let configInput :=
        if String.eqb (Region configInput) "" then setRegion configInput (cliRegion h)
        else configInput in
      if String.eqb (Region configInput) "" then (Some regionNotSet, out)
      else
        let configInput :=
          if String.eqb (Profile configInput) "" then
            setProfile configInput (cliProfile h)
          else configInput in
        if String.eqb (Profile configInput) "" then (Some profileNotSet, out)
        else
          let configInput :=
            if cliSkipPublish h then setSkipPublish configInput true
            else configInput in
          runLoaded h configInput out
  end.

(** [main]: the exit status of the process and the trace; [log.Fatal] logs
    the error and exits with status 1. *)
Definition main (h : Host) : Z * list RunEvent :=
  match run h with
  | (Some err, out) => (1%Z, out ++ [LogFatal err])
  | (None, out) => (0%Z, out)
  end.

End Caller.

(** A setting read from the file when the file has it, else from the flag. *)
Definition resolve (fromFile fromFlag : string) : string :=
  if String.eqb fromFile "" then fromFlag else fromFile.

(** The dimension cell of a list of dimensions as they are sent. *)
Definition sentCell (ds : list Dimension) : string :=
  foldr (fun d s => Dimension_Name d +:+ "=" +:+ Dimension_Value d +:+ " " +:+ s)
    "" ds.

(** The configuration [run] hands to [publishMetrics], for the
    configuration [c] of the file: region and profile from the file when it
    has them, else from the flags; skip-publish when the file or the flag
    sets it; the namespace and the mappings of the file. *)
Definition effectiveConfig (h : Host) (c : Config) : Config :=
  {| Region := resolve (Region c) (cliRegion h);
     Profile := resolve (Profile c) (cliProfile h);
     SkipPublish := cliSkipPublish h || SkipPublish c;
     MetricNamespace := MetricNamespace c;
     MetricMappings := MetricMappings c |}.

(** The options of that configuration. *)
Definition effectiveOpts (h : Host) (c : Config) : list LoadOption :=
  [WithSharedConfigProfile (resolve (Profile c) (cliProfile h));
   WithRegion (resolve (Region c) (cliRegion h))].

(** The requests in a trace of [run]. *)
Definition runPutCalls (tr : list RunEvent) : list PutMetricDataInput :=
  omap (fun e => match e with
                 | Inner (PutMetricDataCall input) => Some input
                 | _ => None
                 end) tr.




(** A host whose files hold any bytes, whose AWS configuration loads, and
    that publishes in the world [w]; the parsers that go with it return a
    given configuration and given data. *)
Definition host (region profile : string) (skip : bool) (w : World) : Host :=
  {| cliRegion := region;
     cliProfile := profile;
     cliSkipPublish := skip;
     readFile := fun _ => inl "";
     loadDefaultConfig := fun _ => None;
     worldOf := fun _ => w |}.

Definition parsesTo {A : Type} (a : A) : string -> A * option error :=
  fun _ => (a, None).

(** The example configuration without region and profile. *)
Definition bareConfig : Config := setProfile (setRegion exampleConfig "") "".

(** A host on which the AWS configuration does not load. *)
Definition offlineHost : Host :=
  {| cliRegion := ""; cliProfile := ""; cliSkipPublish := true;
     readFile := fun _ => inl "";
     loadDefaultConfig := fun _ => Some "no credentials";
     worldOf := fun _ => batchWorld |}.

(** A host with the flags [us-east-1] and [flag-profile]. *)
Definition flagHost (skip : bool) (w : World) : Host :=
  host "us-east-1" "flag-profile" skip w.

(** * Part II, continued: the earlier version of the tool ([main.go]) *)

Module Legacy.

(** Config provides global configuration: a mapping is the remote name
    alone. *)
Record Config : Type := {
  Region : string;
  Profile : string;
  SkipPublish : bool;
  MetricNamespace : string;
  MetricMappings : gmap string string
}.

(** PerformanceData is the data being captured and sent to AWS: values are
    Go [int]s, integers of [-2^63, 2^63). *)
Abbreviation PerformanceData := (gmap string Z).

(** [float64(value)] on an [int]: the nearest binary64 number. *)
Definition float64OfInt (value : Z) : float :=
  let a := Z.abs value in
  let m :=
    if (a <? 2 ^ 63)%Z then PrimFloat.of_uint63 (Uint63.of_Z a)
    else (PrimFloat.of_uint63 (Uint63.of_Z (2 ^ 62)) * 2)%float in
  if (value <? 0)%Z then PrimFloat.opp m else m.

(** The world of a run: the order of the one [range], the clock and the
    remote service. *)
Record World : Type := {
  rangePublish : PerformanceData -> list (string * Z);
  timeNow : nat -> Time;
  putMetricData : PutMetricDataInput -> option error
}.

Definition world_ok (w : World) : Prop :=
  forall data : PerformanceData, rangePublish w data ≡ₚ map_to_list data.

Record Host : Type := {
  readFile : string -> string + error;
  loadDefaultConfig : list LoadOption -> option error;
  worldOf : list LoadOption -> World
}.

Definition zeroConfig : Config :=
  {| Region := ""; Profile := ""; SkipPublish := false;
     MetricNamespace := ""; MetricMappings := ∅ |}.

Definition skipping : string := "Skipping." +:+ nl.

Section Program.

(** [fmt]'s [%v] on the data map. *)
Variable SprintData : PerformanceData -> string.

(** [yaml.Unmarshal] into a [Config] and into a [PerformanceData]. *)
Variable unmarshalConfig : string -> Config * option error.
Variable unmarshalData : string -> PerformanceData * option error.

(** The body of the loop of [publishMetrics]. *)
Definition appendDatum (w : World) (config : Config)
    (metricData : list MetricDatum) (kv : string * Z) : list MetricDatum :=
  let '(key, value) := kv in
  match MetricMappings config !! key with
  | None => metricData
  | Some metricName =>
      metricData
      ++ [{| MetricName := metricName;
             Value := float64OfInt value;
             Timestamp := timeNow w (length metricData);
             Unit := StandardUnitCount;
             Dimensions := [] |}]
  end.

Definition metricDataOf (w : World) (data : PerformanceData) (config : Config)
    : list MetricDatum :=
  fold_left (appendDatum w config) (rangePublish w data) [].

(** publishMetrics will publish the metrics to the nominated AWS account. *)
Definition publishMetrics (w : World) (data : PerformanceData) (config : Config)
    : option error * list Event :=
  let out := [Stdout ("Metrics: " +:+ SprintData data +:+ nl)] in
  if SkipPublish config then (None, out ++ [Stdout skipping])
  else
    let input :=
      {| Namespace := MetricNamespace config;
         MetricData := metricDataOf w data config |} in
    (putMetricData w input, out ++ [PutMetricDataCall input]).

(** loadConfig will load the configuration file. *)
Definition loadConfig (h : Host) (filename : string)
    : (Config * option error) * list RunEvent :=
  match readFile h filename with
  | inr err => ((zeroConfig, Some err), [ReadFile filename])
  | inl file => (unmarshalConfig file, [ReadFile filename])
  end.

(** lodaData will load the data file. *)
Definition loadData (h : Host) (filename : string)
    : (PerformanceData * option error) * list RunEvent :=
  match readFile h filename with
  | inr err => ((∅, Some err), [ReadFile filename])
  | inl file => (unmarshalData file, [ReadFile filename])
  end.

(** The options: the profile and then the region, each when it is not
    empty. *)
Definition optsOf (configInput : Config) : list LoadOption :=
  let opts := [] in
  let opts :=
    if String.eqb (Profile configInput) "" then opts
    else opts ++ [WithSharedConfigProfile (Profile configInput)] in
  let opts :=
    if String.eqb (Region configInput) "" then opts
    else opts ++ [WithRegion (Region configInput)] in
  opts.

(** run will execute the main logic component for error handling. *)
Definition run (h : Host) : option error * list RunEvent :=
  let '((configInput, err), out) := loadConfig h "config.yml" in
  match err with
  | Some e => (Some e, out)
  | None =>
      let '((dataInput, err), read) := loadData h "data.yml" in
      match err with
      | Some e => (Some e, out ++ read)
      | None =>
          let opts := optsOf configInput in
          match loadDefaultConfig h opts with
          | Some e =>
              (Some e,
               out ++ read
               ++ [LoadDefaultConfig opts; Inner (Stdout (awsConfigFailure e))])
          | None =>
              let '(err, sent) :=
                publishMetrics (worldOf h opts) dataInput configInput in
              match err with
              | Some e =>
                  (Some e, out ++ read ++ [LoadDefaultConfig opts] ++ (Inner <$> sent))
              | None =>
                  (None,
                   out ++ read ++ [LoadDefaultConfig opts] ++ (Inner <$> sent)
                   ++ [Inner (Stdout published)])
              end
          end
      end
  end.

(** [main]: the exit status and the trace. *)
Definition main (h : Host) : Z * list RunEvent :=
  match run h with
  | (Some err, out) => (1%Z, out ++ [LogFatal err])
  | (None, out) => (0%Z, out)
  end.

End Program.

(** The record that the entry [kv] of the data gets. *)
Definition recordFor (config : Config) (kv : string * Z) (d : MetricDatum) : Prop :=
  exists metricName,
    MetricMappings config !! kv.1 = Some metricName
    /\ MetricName d = metricName
    /\ Value d = float64OfInt kv.2
    /\ Unit d = StandardUnitCount
    /\ Dimensions d = [].

(** The datum of each entry of [l], the clock read from call [i] on. *)
Fixpoint datumsFrom (w : World) (config : Config) (i : nat)
    (l : list (string * Z)) : list MetricDatum :=
  match l with
  | [] => []
  | kv :: l =>
      match MetricMappings config !! kv.1 with
      | Some metricName =>
          {| MetricName := metricName;
             Value := float64OfInt kv.2;
             Timestamp := timeNow w i;
             Unit := StandardUnitCount;
             Dimensions := [] |} :: datumsFrom w config (S i) l
      | None => datumsFrom w config i l
      end
  end.

Definition mapped (config : Config) (kv : string * Z) : Prop :=
  is_Some (MetricMappings config !! kv.1).

#[global] Instance mapped_decision (config : Config) (kv : string * Z) :
  Decision (mapped config kv).
Proof. unfold mapped. apply _. Defined.

(** A host whose files hold any bytes and whose AWS configuration loads,
    with a world where the remote service accepts every request. *)
Definition quietWorld : World :=
  {| rangePublish := fun data => map_to_list data;
     timeNow := fun i => Z.of_nat i;
     putMetricData := fun _ => None |}.

Definition quietHost : Host :=
  {| readFile := fun _ => inl "";
     loadDefaultConfig := fun _ => None;
     worldOf := fun _ => quietWorld |}.

Definition exampleData : PerformanceData := {[ "steps" := 9000%Z; "mood" := 7%Z ]}.

Definition exampleConfig (skip : bool) : Config :=
  {| Region := ""; Profile := ""; SkipPublish := skip;
     MetricNamespace := "Personal/Performance";
     MetricMappings := {[ "steps" := "DailySteps"; "calories" := "CaloriesBurned" ]} |}.

(** A stand-in for [fmt]'s text of the data. *)
Definition anyText : PerformanceData -> string := fun _ => "map[]".

End Legacy.

(** * Part III: lemmas *)

(** ** The loops *)

Section Loops.

Variable Sprint : float -> string.
Variable scale : float.

Lemma string_app_cons (x : ascii) (a b : string) :
  String x a +:+ b = String x (a +:+ b).
Proof. reflexivity. Qed.

Lemma string_app_assoc (a b c : string) : (a +:+ b) +:+ c = a +:+ (b +:+ c).
Proof.
  induction a as [|x a IH]; [reflexivity|].
  now rewrite !string_app_cons, IH.
Qed.

Lemma string_app_nil_r (a : string) : a +:+ "" = a.
Proof.
  induction a as [|x a IH]; [reflexivity|].
  now rewrite string_app_cons, IH.
Qed.

Lemma dimensionsCell_fold (ds : list MetricMappingDimensions) (acc : string) :
  fold_left (fun dimensions v =>
               dimensions +:+ (dim_Name v +:+ "=" +:+ dim_Value v +:+ " ")) ds acc
  = acc +:+ foldr (fun v s => pairText v +:+ s) "" ds.
Proof.
  revert acc; induction ds as [|d ds IH]; intros acc; cbn [fold_left foldr].
  - now rewrite string_app_nil_r.
  - rewrite IH. fold (pairText d). now rewrite string_app_assoc.
Qed.

Lemma dimensionsCell_foldr (ds : list MetricMappingDimensions) :
  dimensionsCell ds = foldr (fun v s => pairText v +:+ s) "" ds.
Proof. unfold dimensionsCell. now rewrite dimensionsCell_fold. Qed.

Lemma foldr_pairText (ds : list MetricMappingDimensions) :
  foldr (fun v s => pairText v +:+ s) "" ds
  = foldr (fun d s => dim_Name d +:+ "=" +:+ dim_Value d +:+ " " +:+ s) "" ds.
Proof.
  induction ds as [|d ds IH]; [reflexivity|].
  cbn [foldr]. rewrite IH. unfold pairText. now rewrite !string_app_assoc.
Qed.

Lemma appendRow_rowOf (config : Config) (tableData : list (list string))
    (kv : string * float) :
  appendRow Sprint scale config tableData kv = tableData ++ [rowOf Sprint scale config kv].
Proof.
  destruct kv as [key val]. unfold appendRow, rowOf, rounded; simpl.
  now rewrite dimensionsCell_foldr.
Qed.

Lemma fold_appendRow (config : Config) (l : list (string * float))
    (tableData : list (list string)) :
  fold_left (appendRow Sprint scale config) l tableData
  = tableData ++ (rowOf Sprint scale config <$> l).
Proof.
  revert tableData; induction l as [|kv l IH]; intros tableData; simpl.
  - now rewrite app_nil_r.
  - rewrite IH, appendRow_rowOf, <- app_assoc. reflexivity.
Qed.

Lemma tableDataOf_rows (w : World) (data : PerformanceData) (config : Config) :
  tableDataOf Sprint scale w data config
  = tableHeader :: (rowOf Sprint scale config <$> rangeTable w data).
Proof. unfold tableDataOf. now rewrite fold_appendRow. Qed.

Lemma dimensionsOf_fold (ds : list MetricMappingDimensions) (acc : list Dimension) :
  fold_left
    (fun ds dimension =>
       ds ++ [{| Dimension_Name := dim_Name dimension;
                 Dimension_Value := dim_Value dimension |}]) ds acc
  = acc ++ (dimensionOf <$> ds).
Proof.
  revert acc; induction ds as [|d ds IH]; intros acc; simpl.
  - now rewrite app_nil_r.
  - rewrite IH, <- app_assoc. reflexivity.
Qed.

Lemma dimensionsOf_map (metric : MetricMapping) :
  dimensionsOf metric = dimensionOf <$> mm_Dimensions metric.
Proof. unfold dimensionsOf. now rewrite dimensionsOf_fold. Qed.

Lemma fold_appendDatum (w : World) (config : Config)
    (l : list (string * float)) (metricData : list MetricDatum) :
  fold_left (appendDatum scale w config) l metricData
  = metricData ++ datumsFrom scale w config (length metricData) l.
Proof.
  revert metricData; induction l as [|[key value] l IH]; intros metricData; simpl.
  - now rewrite app_nil_r.
  - destruct (MetricMappings config !! key) as [metric|] eqn:E; rewrite IH.
    + rewrite length_app, <- app_assoc; simpl.
      rewrite Nat.add_1_r, dimensionsOf_map. reflexivity.
    + reflexivity.
Qed.

Lemma metricDataOf_datums (w : World) (data : PerformanceData) (config : Config) :
  metricDataOf scale w data config
  = datumsFrom scale w config 0 (rangePublish w data).
Proof. unfold metricDataOf. now rewrite fold_appendDatum. Qed.

Lemma datumsFrom_recordFor (w : World) (config : Config) (i : nat)
    (l : list (string * float)) :
  Forall2 (recordFor scale config) (filter (mapped config) l)
    (datumsFrom scale w config i l).
Proof.
  revert i; induction l as [|[key value] l IH]; intros i; [constructor|].
  cbn [datumsFrom fst snd].
  destruct (MetricMappings config !! key) as [metric|] eqn:E.
  - rewrite filter_cons_True by (unfold mapped; cbn; rewrite E; eauto).
    constructor; [|apply IH].
    exists metric. cbn. repeat split; assumption || reflexivity.
  - rewrite filter_cons_False; [apply IH|].
    unfold mapped; cbn; rewrite E. apply is_Some_None.
Qed.

Lemma datumsFrom_unmapped (w : World) (config : Config) (i : nat)
    (l : list (string * float)) :
  Forall (fun kv => MetricMappings config !! kv.1 = None) l ->
  datumsFrom scale w config i l = [].
Proof.
  induction 1 as [|kv l E _ IH]; [reflexivity|].
  cbn [datumsFrom]. now rewrite E.
Qed.

Lemma datumsFrom_clock (w w' : World) (config : Config) (i : nat)
    (l : list (string * float)) :
  (forall i, timeNow w' i = timeNow w i) ->
  datumsFrom scale w' config i l = datumsFrom scale w config i l.
Proof.
  intros Hclock. revert i; induction l as [|kv l IH]; intros i; [reflexivity|].
  cbn [datumsFrom]. destruct (MetricMappings config !! kv.1); [|apply IH].
  rewrite IH. unfold datumOf. now rewrite Hclock.
Qed.

Lemma range_lookup (o : RangeOrder) (data : PerformanceData) (key : string) (v : float) :
  visits_each_once o -> (key, v) ∈ o data <-> data !! key = Some v.
Proof. intros H. rewrite (H data). apply elem_of_map_to_list. Qed.

Lemma range_NoDup (o : RangeOrder) (data : PerformanceData) :
  visits_each_once o -> NoDup (o data).*1.
Proof. intros H. rewrite (H data). apply NoDup_fst_map_to_list. Qed.


End Loops.

(** ** The confirmation gate *)

Lemma confirm_token_eqn (prompt response : string) (rest : list (string + error)) :
  confirm prompt (inl response :: rest)
  = let r := strings.ToLower (strings.TrimSpace response) in
    let asked := [Stdout (question prompt); StdinRead] in
    if String.eqb r "y" || String.eqb r "yes" then (true, asked)
    else if String.eqb r "n" || String.eqb r "no" then (false, asked)
    else ((confirm prompt rest).1,
          asked ++ [Stdout invalidInput] ++ (confirm prompt rest).2).
Proof.
  cbn [confirm]. cbv zeta. fold (question prompt).
  destruct (String.eqb _ "y" || String.eqb _ "yes"); [reflexivity|].
  destruct (String.eqb _ "n" || String.eqb _ "no"); [reflexivity|].
  destruct (confirm prompt rest); reflexivity.
Qed.




Lemma confirm_events (prompt : string) (input : list (string + error)) :
  Forall (gateEvent prompt) (confirm prompt input).2.
Proof.
  induction input as [|[response|err] rest IH].
  - cbn. repeat constructor.
  - rewrite confirm_token_eqn; cbv zeta.
    destruct (_ || _); [repeat constructor|].
    destruct (_ || _); [repeat constructor|].
    cbn [snd]. repeat (constructor; [constructor|]). exact IH.
  - cbn. repeat constructor.
Qed.

Lemma putCalls_app (tr1 tr2 : list Event) :
  putCalls (tr1 ++ tr2) = putCalls tr1 ++ putCalls tr2.
Proof. apply omap_app. Qed.

Lemma gateEvent_putCalls (prompt : string) (tr : list Event) :
  Forall (gateEvent prompt) tr -> putCalls tr = [].
Proof.
  induction 1 as [|e tr He _ IH]; [reflexivity|].
  destruct He; exact IH.
Qed.

Lemma gate_events (w : World) :
  Forall (gateEvent "Do you want to proceed?") (gate w).2.
Proof.
  unfold gate. destruct (cliNoninteractive w); [constructor|apply confirm_events].
Qed.

Lemma approved_gate (w : World) : approved w -> (gate w).1 = true.
Proof.
  unfold approved, gate. destruct (cliNoninteractive w); [reflexivity|].
  intros [H|H]; [discriminate H|exact H].
Qed.


Lemma last_app_two {A} (l1 l2 : list A) (x y : A) :
  last (l1 ++ l2 ++ [x; y]) = Some y.
Proof.
  change [x; y] with ([x] ++ [y]). rewrite !app_assoc. apply last_snoc.
Qed.

(** Two events that differ, by their texts or their kinds. *)
Ltac event_neq H :=
  first [discriminate H | vm_compute in H; discriminate H].

Ltac not_in_trace :=
  let H := fresh "H" in
  intros H;
  repeat (apply elem_of_cons in H as [H|H]; [event_neq H|]);
  apply elem_of_nil in H; exact H.

Lemma published_no_gateEvent (prompt : string) (tr : list Event) :
  prompt = "Do you want to proceed?" ->
  Forall (gateEvent prompt) tr -> Stdout published ∉ tr.
Proof.
  intros -> Htr Hin.
  apply (proj1 (Forall_forall _ _) Htr) in Hin.
  inversion Hin as [H|H|H|e H]; event_neq H.
Qed.

(** ** The run *)

Section Run.

Variable Sprint : float -> string.
Variable scale : float.

Lemma publishMetrics_error (w : World) (data : PerformanceData) (config : Config) :
  (publishMetrics Sprint scale w data config).1
  = match renderErr w with
    | Some e => Some e
    | None =>
        if SkipPublish config then None
        else if (gate w).1 then putMetricData w (inputOf scale w data config)
        else None
    end.
Proof.
  unfold publishMetrics, printTable.
  destruct (renderErr w); [reflexivity|].
  destruct (SkipPublish config); [reflexivity|].
  destruct (gate w) as [[|] asked]; cbn [fst]; [|reflexivity].
  destruct (putMetricData w _); reflexivity.
Qed.

Lemma publishMetrics_trace (w : World) (data : PerformanceData) (config : Config) :
  (publishMetrics Sprint scale w data config).2
  = preview Sprint scale w data config
    ++ match renderErr w with
       | Some e => []
       | None =>
           if SkipPublish config then [Stdout skipped]
           else
             (gate w).2
             ++ (if (gate w).1 then
                   PutMetricDataCall (inputOf scale w data config)
                   :: match putMetricData w (inputOf scale w data config) with
                      | Some _ => []
                      | None => [Stdout published]
                      end
                 else [Stdout cancelled])
       end.
Proof.
  unfold publishMetrics, printTable, preview.
  destruct (renderErr w); [reflexivity|].
  destruct (SkipPublish config); [reflexivity|].
  destruct (gate w) as [[|] asked]; cbn [fst snd]; [|reflexivity].
  destruct (putMetricData w _); reflexivity.
Qed.

Lemma publishMetrics_putCalls (w : World) (data : PerformanceData) (config : Config) :
  renderErr w = None ->
  SkipPublish config = false ->
  approved w ->
  putCalls (publishMetrics Sprint scale w data config).2
  = [inputOf scale w data config].
Proof.
  intros Hr Hskip Happ%approved_gate.
  rewrite publishMetrics_trace, Hr, Hskip, Happ.
  rewrite !putCalls_app, (gateEvent_putCalls _ _ (gate_events w)).
  destruct (putMetricData w _); reflexivity.
Qed.

End Run.

(** ** The concrete runs *)

Lemma inOrder_visits : visits_each_once inOrder.
Proof. intros data. reflexivity. Qed.

Lemma inReverse_visits : visits_each_once inReverse.
Proof. intros data. apply reverse_Permutation. Qed.

Lemma batchWorld_ok : world_ok batchWorld.
Proof. split; apply inOrder_visits. Qed.

Lemma promptWorld_ok (input : list (string + error)) : world_ok (promptWorld input).
Proof. split; apply inOrder_visits. Qed.

Lemma shuffledWorld_ok : world_ok shuffledWorld.
Proof. split; [apply inOrder_visits | apply inReverse_visits]. Qed.


(** [math.Round] on halves, and the two precisions. *)
Example Round_halves_away_from_zero :
  math.Round 0.5 = 1%float /\ math.Round (-0.5) = (-1)%float
  /\ math.Round 2.5 = 3%float /\ math.Round (-2.5) = (-3)%float
  /\ math.Round 2.25 = 2%float /\ math.Round (-2.75) = (-3)%float
  /\ rounded current 0.125 = (13 / 100)%float
  /\ rounded current (-0.125) = (-13 / 100)%float
  /\ rounded legacy 0.25 = (3 / 10)%float
  /\ rounded legacy (-0.25) = (-3 / 10)%float.
Proof. repeat split; vm_compute; reflexivity. Qed.

Example exampleTable :
  tableDataOf decimalText current batchWorld exampleData exampleConfig
  = [ ["Metric name"; "Value"; "Dimensions"];
      ["A"; "1.25"; ""];
      ["B"; "2"; "Goal=Fitness "] ].
Proof. vm_compute. reflexivity. Qed.

Example strayBatch :
  summary <$> metricDataOf current batchWorld strayData exampleConfig
  = [("A", 1.25%float, [])].
Proof. vm_compute. reflexivity. Qed.

(** The inputs of the specification: [Y], [ yes ], [n], [NO] and [maybe]. *)
Example confirm_examples :
  (confirm "Do you want to proceed?" [inl ("Y" +:+ nl)]).1 = true
  /\ (confirm "Do you want to proceed?" [inl (" yes " +:+ nl)]).1 = true
  /\ (confirm "Do you want to proceed?" [inl ("n" +:+ nl)]).1 = false
  /\ (confirm "Do you want to proceed?" [inl ("NO" +:+ nl)]).1 = false
  /\ confirm "Do you want to proceed?" [inl ("maybe" +:+ nl); inl ("Y" +:+ nl)]
     = (true,
        [Stdout "Do you want to proceed? [y/n]: "; StdinRead;
         Stdout invalidInput;
         Stdout "Do you want to proceed? [y/n]: "; StdinRead]).
Proof. repeat split; vm_compute; reflexivity. Qed.

Example shuffledRun :
  previewNames decimalText current shuffledWorld exampleData exampleConfig
  = ["A"; "B"]
  /\ batchNames current shuffledWorld exampleData exampleConfig = ["B"; "A"]
  /\ batchNames current batchWorld exampleData exampleConfig = ["A"; "B"].
Proof. repeat split; vm_compute; reflexivity. Qed.

(** An observed key without a mapping has a row of its own in the table,
    with an empty name and an empty dimension cell, and no record in the
    batch. *)
Example strayTable :
  tableDataOf decimalText current batchWorld strayData exampleConfig
  = [ ["Metric name"; "Value"; "Dimensions"];
      [""; "3"; ""];
      ["A"; "1.25"; ""] ]
  /\ batchNames current batchWorld strayData exampleConfig = ["A"].
Proof. split; vm_compute; reflexivity. Qed.

(** * Part IV: the properties of the specification *)

Section Claims.

Variable Sprint : float -> string.
Variable scale : float.

(** C1 — an observed key without a mapping gets no metric record: its entry
    leaves the batch as it was and the run goes on (with [Render] and the
    remote service answering without error, the run returns no error); the
    batch holds one record for each key that is both in the data and in the
    mappings, and no other. *)
Theorem C1_unmapped_keys_are_dropped
    (w : World) (data : PerformanceData) (config : Config) :
  world_ok w ->
  (exists kvs : list (string * float),
      NoDup kvs.*1
      /\ (forall key v,
            (key, v) ∈ kvs
            <-> data !! key = Some v /\ is_Some (MetricMappings config !! key))
      /\ Forall2 (recordFor scale config) kvs (metricDataOf scale w data config))
  /\ (forall metricData key v,
        MetricMappings config !! key = None ->
        appendDatum scale w config metricData (key, v) = metricData)
  /\ (renderErr w = None ->
      (forall input, putMetricData w input = None) ->
      (publishMetrics Sprint scale w data config).1 = None).
Proof.
  intros [_ Hpub]. split; [|split].
  - exists (filter (mapped config) (rangePublish w data)). split; [|split].
    + apply (NoDup_fmap_fst _).
      * intros key v1 v2 [_ H1]%list_elem_of_filter [_ H2]%list_elem_of_filter.
        apply (range_lookup _ _ _ _ Hpub) in H1, H2. congruence.
      * apply NoDup_filter.
        eapply NoDup_fmap_1. apply (range_NoDup _ data Hpub).
    + intros key v. rewrite list_elem_of_filter, (range_lookup _ _ _ _ Hpub).
      unfold mapped; cbn. tauto.
    + rewrite metricDataOf_datums. apply datumsFrom_recordFor.
  - intros metricData key v E. cbn. now rewrite E.
  - intros Hr Hp. rewrite publishMetrics_error, Hr, Hp.
    destruct (SkipPublish config), (gate w).1; reflexivity.
Qed.

(** C2 — with skip-publish set, whatever the flag [--non-interactive] and
    whatever standard input holds: no request is sent to the remote service,
    the question of the confirmation gate is not asked and standard input is
    not read; the run starts with the preview table and, the table rendered,
    ends without error on the skip message. *)
Theorem C2_skip_publish_never_publishes
    (w : World) (data : PerformanceData) (config : Config) :
  SkipPublish config = true ->
  let run := publishMetrics Sprint scale w data config in
  putCalls run.2 = []
  /\ reads run.2 = 0
  /\ (Stdout (question "Do you want to proceed?") ∉ run.2)
  /\ (exists rest, run.2 = preview Sprint scale w data config ++ rest)
  /\ (renderErr w = None ->
      run = (None, preview Sprint scale w data config ++ [Stdout skipped])).
Proof.
  intros Hskip run. subst run.
  rewrite publishMetrics_trace, Hskip.
  repeat split.
  - destruct (renderErr w); reflexivity.
  - destruct (renderErr w); reflexivity.
  - destruct (renderErr w); unfold preview; cbn [app]; not_in_trace.
  - eauto.
  - intros Hr. apply injective_projections.
    + now rewrite publishMetrics_error, Hr, Hskip.
    + now rewrite publishMetrics_trace, Hr, Hskip.
Qed.




(** C7 — when publishing proceeds (the table rendered, skip-publish off, the
    run approved), the trace holds exactly one request: the configured
    namespace with the whole assembled batch.  The run returns what the
    remote service answers: on a failure that error, and the success message
    is not printed; on success no error, and the success message ends the
    trace. *)
Theorem C7_one_request_per_run
    (w : World) (data : PerformanceData) (config : Config) :
  renderErr w = None ->
  SkipPublish config = false ->
  approved w ->
  let run := publishMetrics Sprint scale w data config in
  let input := {| Namespace := MetricNamespace config;
                  MetricData := metricDataOf scale w data config |} in
  putCalls run.2 = [input]
  /\ run.1 = putMetricData w input
  /\ (forall e, putMetricData w input = Some e ->
                run.1 = Some e /\ Stdout published ∉ run.2)
  /\ (putMetricData w input = None ->
      run.1 = None /\ last run.2 = Some (Stdout published)).
Proof.
  intros Hr Hskip Happ run input. subst run.
  fold (inputOf scale w data config) in input. subst input.
  rewrite (publishMetrics_putCalls Sprint scale _ _ _ Hr Hskip Happ).
  apply approved_gate in Happ.
  rewrite publishMetrics_error, publishMetrics_trace, Hr, Hskip, Happ.
  pose proof (gate_events w) as Hg.
  repeat apply conj.
  - reflexivity.
  - reflexivity.
  - intros e He. split; [exact He|]. rewrite He.
    intros Hin. apply elem_of_app in Hin as [Hin|Hin].
    + revert Hin. unfold preview. not_in_trace.
    + apply elem_of_app in Hin as [Hin|Hin].
      * now apply (published_no_gateEvent _ _ eq_refl Hg).
      * revert Hin. not_in_trace.
  - intros He. split; [exact He|]. rewrite He.
    apply last_app_two.
Qed.

(** C8, amended — the data rows of the table follow the order in which the
    [range] of [printTable] visits the data, the records of the batch the
    order in which the [range] of [publishMetrics] visits it, entries without
    a mapping passed over.  The mapped entries of the two are the same up to
    their order, and they are in the same order whenever the two [range]
    statements visit the data in the same order; two runs whose [range]
    statements and clock agree produce the same table and the same batch. *)
Theorem C8_order_follows_the_range_statements
    (w : World) (data : PerformanceData) (config : Config) :
  world_ok w ->
  let shown := filter (mapped config) (rangeTable w data) in
  let sent := filter (mapped config) (rangePublish w data) in
  tableDataOf Sprint scale w data config
  = tableHeader :: (rowOf Sprint scale config <$> rangeTable w data)
  /\ Forall2 (recordFor scale config) sent (metricDataOf scale w data config)
  /\ shown ≡ₚ sent
  /\ (rangeTable w data = rangePublish w data -> shown = sent)
  /\ (forall w',
        rangeTable w' data = rangeTable w data ->
        rangePublish w' data = rangePublish w data ->
        (forall i, timeNow w' i = timeNow w i) ->
        tableDataOf Sprint scale w' data config
        = tableDataOf Sprint scale w data config
        /\ metricDataOf scale w' data config = metricDataOf scale w data config).
Proof.
  intros [Htab Hpub] shown sent. subst shown sent. repeat apply conj.
  - apply tableDataOf_rows.
  - rewrite metricDataOf_datums. apply datumsFrom_recordFor.
  - now rewrite (Htab data), (Hpub data).
  - now intros ->.
  - intros w' Ht Hp Hclock. split.
    + now rewrite !tableDataOf_rows, Ht.
    + rewrite !metricDataOf_datums, Hp. now apply datumsFrom_clock.
Qed.

(** C9, amended — every observed key that has a mapping has a data row in
    the table, which shows the remote name, the text of the rounded value,
    and the dimensions in the order of their declaration, each as
    [name=value] followed by one space (the empty string when there is
    none); on empty data the table is its header row alone, and
    [printTable] returns what [Render] returns. *)
Theorem C9_rows_of_the_preview_table
    (w : World) (data : PerformanceData) (config : Config) :
  world_ok w ->
  (forall key v metric,
      data !! key = Some v ->
      MetricMappings config !! key = Some metric ->
      [mm_Name metric;
       Sprint (math.Round (v * scale) / scale)%float;
       foldr (fun d s => dim_Name d +:+ "=" +:+ dim_Value d +:+ " " +:+ s) ""
         (mm_Dimensions metric)]
      ∈ tail (tableDataOf Sprint scale w data config))
  /\ (data = ∅ -> tableDataOf Sprint scale w data config = [tableHeader])
  /\ printTable Sprint scale w data config
     = (renderErr w,
        [Stdout ("Metrics to be published:" +:+ nl);
         TableRender (tableDataOf Sprint scale w data config)]).
Proof.
  intros [Htab _]. repeat apply conj.
  - intros key v metric Hv Hm. rewrite tableDataOf_rows. cbn [tail].
    apply list_elem_of_fmap. exists (key, v). split.
    + unfold rowOf, rounded; cbn [fst snd]. rewrite Hm. cbn.
      now rewrite foldr_pairText.
    + now apply range_lookup.
  - intros ->. rewrite tableDataOf_rows.
    pose proof (Htab ∅) as H. rewrite map_to_list_empty in H.
    apply Permutation_nil_r in H. now rewrite H.
  - reflexivity.
Qed.

(** C10 — when no observed key has a mapping (the data may be empty),
    skip-publish is off and the run is non-interactive or confirmed, the
    request is sent all the same, with an empty list of records. *)
Theorem C10_empty_batch_is_still_sent
    (w : World) (data : PerformanceData) (config : Config) :
  world_ok w ->
  (forall key, is_Some (data !! key) -> MetricMappings config !! key = None) ->
  renderErr w = None ->
  SkipPublish config = false ->
  approved w ->
  putCalls (publishMetrics Sprint scale w data config).2
  = [{| Namespace := MetricNamespace config; MetricData := [] |}].
Proof.
  intros [_ Hpub] Hnone Hr Hskip Happ.
  rewrite (publishMetrics_putCalls Sprint scale _ _ _ Hr Hskip Happ). unfold inputOf.
  rewrite metricDataOf_datums, datumsFrom_unmapped; [reflexivity|].
  apply Forall_forall. intros [key v] Hin. cbn.
  apply Hnone. apply (range_lookup _ _ _ _ Hpub) in Hin. eauto.
Qed.

End Claims.

(** C3 — for the data [{a: 1.25, b: 2}] and the mappings [a] to [A] without
    dimensions and [b] to [B] with the dimension [Goal=Fitness], at two
    decimals, the batch is two records whatever the order of the visit: [A]
    with value [1.25] and no dimension, and [B] with value [2] and the one
    dimension [Goal=Fitness]. *)
Theorem C3_example_assembly (w : World) :
  world_ok w ->
  summary <$> metricDataOf current w exampleData exampleConfig
  ≡ₚ [ ("A", 1.25%float, []);
       ("B", 2%float, [{| Dimension_Name := "Goal"; Dimension_Value := "Fitness" |}]) ].
Proof.
  intros [_ Hpub]. rewrite metricDataOf_datums.
  pose proof (Hpub exampleData) as H. symmetry in H.
  let l := eval vm_compute in (map_to_list exampleData) in
  change (map_to_list exampleData) with l in H.
  apply Permutation_length_2_inv in H as [-> | ->].
  - vm_compute. reflexivity.
  - vm_compute. apply perm_swap.
Qed.

(** ** The theorems at concrete runs *)

Lemma C1_witness :
  (exists kvs : list (string * float),
      NoDup kvs.*1
      /\ (forall key v,
            (key, v) ∈ kvs
            <-> strayData !! key = Some v
                /\ is_Some (MetricMappings exampleConfig !! key))
      /\ Forall2 (recordFor current exampleConfig) kvs
           (metricDataOf current batchWorld strayData exampleConfig))
  /\ (publishMetrics decimalText current batchWorld strayData exampleConfig).1
     = None.
Proof.
  pose proof (C1_unmapped_keys_are_dropped decimalText current batchWorld
                strayData exampleConfig batchWorld_ok) as [H1 [_ H3]].
  split; [exact H1|]. apply H3; reflexivity.
Defined.

Lemma C2_witness :
  publishMetrics decimalText current (promptWorld [inl ("y" +:+ nl)])
    exampleData skipConfig
  = (None,
     preview decimalText current (promptWorld [inl ("y" +:+ nl)])
       exampleData skipConfig
     ++ [Stdout skipped]).
Proof.
  apply (C2_skip_publish_never_publishes decimalText current
           (promptWorld [inl ("y" +:+ nl)]) exampleData skipConfig eq_refl).
  reflexivity.
Defined.

Lemma C3_witness :
  summary <$> metricDataOf current shuffledWorld exampleData exampleConfig
  ≡ₚ [ ("A", 1.25%float, []);
       ("B", 2%float, [{| Dimension_Name := "Goal"; Dimension_Value := "Fitness" |}]) ].
Proof. exact (C3_example_assembly shuffledWorld shuffledWorld_ok). Defined.




Lemma C7_witness :
  putCalls
    (publishMetrics decimalText current (promptWorld [inl ("y" +:+ nl)])
       exampleData exampleConfig).2
  = [{| Namespace := "Personal/Performance";
        MetricData :=
          metricDataOf current (promptWorld [inl ("y" +:+ nl)])
            exampleData exampleConfig |}].
Proof.
  apply (C7_one_request_per_run decimalText current
           (promptWorld [inl ("y" +:+ nl)]) exampleData exampleConfig
           eq_refl eq_refl).
  right. reflexivity.
Defined.

Lemma C8_witness :
  filter (mapped exampleConfig) (rangeTable shuffledWorld exampleData)
  ≡ₚ filter (mapped exampleConfig) (rangePublish shuffledWorld exampleData).
Proof.
  exact (proj1 (proj2 (proj2
           (C8_order_follows_the_range_statements decimalText current
              shuffledWorld exampleData exampleConfig shuffledWorld_ok)))).
Defined.

Lemma C9_witness :
  ["B"; decimalText (math.Round (2 * current) / current)%float;
   foldr (fun d s => dim_Name d +:+ "=" +:+ dim_Value d +:+ " " +:+ s) ""
     [goalFitness]]
  ∈ tail (tableDataOf decimalText current batchWorld exampleData exampleConfig).
Proof.
  exact (proj1
           (C9_rows_of_the_preview_table decimalText current batchWorld
              exampleData exampleConfig batchWorld_ok)
           "b" 2%float {| mm_Name := "B"; mm_Dimensions := [goalFitness] |}
           eq_refl eq_refl).
Defined.

Lemma C10_witness :
  putCalls
    (publishMetrics decimalText current batchWorld unmappedData exampleConfig).2
  = [{| Namespace := "Personal/Performance"; MetricData := [] |}].
Proof.
  apply (C10_empty_batch_is_still_sent decimalText current batchWorld
           unmappedData exampleConfig batchWorld_ok).
  - intros key [v H]. unfold unmappedData in H.
    apply lookup_singleton_Some in H as [<- _]. reflexivity.
  - reflexivity.
  - reflexivity.
  - left. reflexivity.
Defined.

(** ** Where the code departs from the specification *)

(** C8, as stated, fails: in a run whose two [range] statements visit the
    data in opposite orders the table lists [A] then [B] and the batch is
    assembled [B] then [A]; and two runs on the same data and configuration
    assemble the batch in different orders. *)
Lemma C8_counterexample :
  world_ok shuffledWorld
  /\ world_ok batchWorld
  /\ previewNames decimalText current shuffledWorld exampleData exampleConfig
     <> batchNames current shuffledWorld exampleData exampleConfig
  /\ batchNames current batchWorld exampleData exampleConfig
     <> batchNames current shuffledWorld exampleData exampleConfig.
Proof.
  split; [exact shuffledWorld_ok|]. split; [exact batchWorld_ok|].
  split; vm_compute; discriminate.
Qed.

(** C9, as stated, fails: for the mapped key [b], with the one dimension
    [Goal=Fitness], the table has no row with the name [B] and the
    space-joined cell [Goal=Fitness], whatever the text of the value: the
    cell of the row ends with a space. *)
Lemma C9_counterexample :
  world_ok batchWorld
  /\ exampleData !! "b" = Some 2%float
  /\ MetricMappings exampleConfig !! "b"
     = Some {| mm_Name := "B"; mm_Dimensions := [goalFitness] |}
  /\ ~ exists Sprint : float -> string,
        ["B"; Sprint (math.Round (2 * current) / current)%float;
         spaceJoined [goalFitness]]
        ∈ tableDataOf Sprint current batchWorld exampleData exampleConfig.
Proof.
  split; [exact batchWorld_ok|]. split; [reflexivity|]. split; [reflexivity|].
  intros [Sprint H]. rewrite tableDataOf_rows in H.
  vm_compute in H.
  repeat (apply elem_of_cons in H as [H|H]; [discriminate H|]).
  now apply elem_of_nil in H.
Qed.

(** * Part V: further properties of the code *)

(** ** [confirm] *)






















(** ** [publishMetrics] *)

Section Publish.

Variable Sprint : float -> string.
Variable scale : float.

Lemma last_preview_app (w : World) (data : PerformanceData) (config : Config)
    (tr : list Event) (e : Event) :
  last (preview Sprint scale w data config ++ tr ++ [e]) = Some e.
Proof. rewrite app_assoc. apply last_snoc. Qed.

(** X3 — every run of [publishMetrics] starts with the preview and ends in
    one of five ways: [Render] failed, and its error is returned right after
    the preview; publishing is skipped; the run is declined; the request is
    sent and fails, and its error is returned; the request is sent and
    accepted.  Only the last two send a request, and then exactly one; a
    skipped or declined run returns no error. *)
Theorem publishMetrics_outcomes
    (w : World) (data : PerformanceData) (config : Config) :
  let run := publishMetrics Sprint scale w data config in
  let input := inputOf scale w data config in
  (exists rest, run.2 = preview Sprint scale w data config ++ rest)
  /\ ((exists e, renderErr w = Some e /\ run.1 = Some e
                 /\ run.2 = preview Sprint scale w data config)
      \/ (renderErr w = None /\ SkipPublish config = true
          /\ run.1 = None /\ putCalls run.2 = []
          /\ last run.2 = Some (Stdout skipped))
      \/ (renderErr w = None /\ SkipPublish config = false /\ (gate w).1 = false
          /\ run.1 = None /\ putCalls run.2 = []
          /\ last run.2 = Some (Stdout cancelled))
      \/ (exists e, renderErr w = None /\ SkipPublish config = false
                    /\ (gate w).1 = true /\ putMetricData w input = Some e
                    /\ run.1 = Some e /\ putCalls run.2 = [input]
                    /\ last run.2 = Some (PutMetricDataCall input))
      \/ (renderErr w = None /\ SkipPublish config = false
          /\ (gate w).1 = true /\ putMetricData w input = None
          /\ run.1 = None /\ putCalls run.2 = [input]
          /\ last run.2 = Some (Stdout published))).
Proof.
  intros run input. subst run input.
  rewrite publishMetrics_error, publishMetrics_trace.
  split; [eauto|].
  pose proof (gateEvent_putCalls _ _ (gate_events w)) as Hg.
  destruct (renderErr w) as [e|].
  { left. exists e. now rewrite app_nil_r. }
  right. destruct (SkipPublish config).
  { left. repeat split. }
  right. destruct (gate w).1.
  2:{ left. repeat split.
      - now rewrite !putCalls_app, Hg.
      - apply last_preview_app. }
  right. destruct (putMetricData w _) as [e|] eqn:E.
  - left. exists e. repeat split.
    + now rewrite !putCalls_app, Hg.
    + apply last_preview_app.
  - right. repeat split.
    + now rewrite !putCalls_app, Hg.
    + apply last_app_two.
Qed.

Lemma published_in_trace (w : World) (data : PerformanceData) (config : Config) :
  Stdout published ∈ (publishMetrics Sprint scale w data config).2 ->
  renderErr w = None /\ SkipPublish config = false /\ (gate w).1 = true
  /\ putMetricData w (inputOf scale w data config) = None.
Proof.
  rewrite publishMetrics_trace. intros Hin.
  apply elem_of_app in Hin as [Hin|Hin].
  { exfalso. revert Hin. unfold preview. not_in_trace. }
  destruct (renderErr w); [now apply elem_of_nil in Hin|].
  destruct (SkipPublish config); [exfalso; revert Hin; not_in_trace|].
  apply elem_of_app in Hin as [Hin|Hin].
  { exfalso. now apply (published_no_gateEvent _ _ eq_refl (gate_events w)). }
  destruct (gate w).1; [|exfalso; revert Hin; not_in_trace].
  destruct (putMetricData w _); [exfalso; revert Hin; not_in_trace|].
  repeat split.
Qed.

(** X4 — the success message is printed exactly when a request was sent and
    the remote service accepted it. *)
Theorem success_message_iff_request_accepted
    (w : World) (data : PerformanceData) (config : Config) :
  Stdout published ∈ (publishMetrics Sprint scale w data config).2
  <-> exists input,
        putCalls (publishMetrics Sprint scale w data config).2 = [input]
        /\ putMetricData w input = None.
Proof.
  split.
  - intros (Hr & Hskip & Hg & Hput)%published_in_trace.
    exists (inputOf scale w data config). split; [|exact Hput].
    rewrite publishMetrics_trace, Hr, Hskip, Hg, Hput.
    now rewrite !putCalls_app, (gateEvent_putCalls _ _ (gate_events w)).
  - intros (input & Hcalls & Hput).
    pose proof (gateEvent_putCalls _ _ (gate_events w)) as Hg.
    rewrite publishMetrics_trace in Hcalls |- *.
    destruct (renderErr w); [discriminate Hcalls|].
    destruct (SkipPublish config); [discriminate Hcalls|].
    rewrite !putCalls_app, Hg in Hcalls.
    destruct (gate w).1; [|discriminate Hcalls].
    destruct (putMetricData w (inputOf scale w data config)) eqn:E.
    + injection Hcalls as <-. congruence.
    + rewrite !elem_of_app. right. right. right. left.
Qed.



End Publish.

(** ** The table and the batch *)

Section Counts.

Variable Sprint : float -> string.
Variable scale : float.

Lemma datumsFrom_length (w : World) (config : Config) (i : nat)
    (l : list (string * float)) :
  length (datumsFrom scale w config i l) = length (filter (mapped config) l).
Proof.
  symmetry. eapply Forall2_length. apply datumsFrom_recordFor.
Qed.

Lemma mapped_keys (o : RangeOrder) (data : PerformanceData) (config : Config) :
  visits_each_once o ->
  (filter (mapped config) (o data)).*1
  ≡ₚ elements (dom data ∩ dom (MetricMappings config)).
Proof.
  intros Ho. apply NoDup_Permutation.
  - apply (NoDup_fmap_fst _).
    + intros key v1 v2 [_ H1]%list_elem_of_filter [_ H2]%list_elem_of_filter.
      apply (range_lookup _ _ _ _ Ho) in H1, H2. congruence.
    + apply NoDup_filter. eapply NoDup_fmap_1. apply (range_NoDup _ data Ho).
  - apply NoDup_elements.
  - intros key. rewrite elem_of_elements, elem_of_intersection, !elem_of_dom.
    rewrite list_elem_of_fmap. split.
    + intros ([key' v] & -> & [Hm Hin]%list_elem_of_filter).
      apply (range_lookup _ _ _ _ Ho) in Hin. cbn. split; [eauto|exact Hm].
    + intros [[v Hv] Hm]. exists (key, v). split; [reflexivity|].
      apply list_elem_of_filter. split; [exact Hm|].
      now apply (range_lookup _ _ _ _ Ho).
Qed.

(** X7 — the table holds the header and one data row for every observed key,
    mapped or not: a key without a mapping has a row with an empty name and
    an empty dimension cell beside its rounded value. *)
Theorem table_has_a_row_per_observed_key
    (w : World) (data : PerformanceData) (config : Config) :
  world_ok w ->
  length (tableDataOf Sprint scale w data config) = S (size data)
  /\ forall key v,
       data !! key = Some v ->
       MetricMappings config !! key = None ->
       [""; Sprint (math.Round (v * scale) / scale)%float; ""]
       ∈ tail (tableDataOf Sprint scale w data config).
Proof.
  intros [Htab _]. rewrite tableDataOf_rows. split.
  - cbn [length]. rewrite length_fmap, (Htab data). f_equal.
    apply length_map_to_list.
  - intros key v Hv Hm. cbn [tail]. apply list_elem_of_fmap.
    exists (key, v). split; [|now apply range_lookup].
    unfold rowOf, rounded; cbn [fst snd]. now rewrite Hm.
Qed.

(** X8 — the batch holds as many records as there are keys both in the data
    and in the mappings, so never more than the table has data rows. *)
Theorem batch_has_a_record_per_mapped_key
    (w : World) (data : PerformanceData) (config : Config) :
  world_ok w ->
  length (metricDataOf scale w data config)
  = size (dom data ∩ dom (MetricMappings config))
  /\ S (length (metricDataOf scale w data config))
     <= length (tableDataOf Sprint scale w data config).
Proof.
  intros [Htab Hpub]. rewrite metricDataOf_datums, datumsFrom_length. split.
  - rewrite <- (length_fmap fst), (mapped_keys _ _ _ Hpub). reflexivity.
  - rewrite tableDataOf_rows. cbn [length]. rewrite length_fmap.
    apply le_n_S. rewrite (Htab data), <- (Hpub data). apply length_filter.
Qed.

(** X9 — the dimensions of a mapping are sent one for one and in their
    order, duplicates included, and the cell of the table lists exactly the
    dimensions that are sent. *)
Theorem dimensions_are_forwarded_in_order (metric : MetricMapping) :
  length (dimensionsOf metric) = length (mm_Dimensions metric)
  /\ (forall i d,
        mm_Dimensions metric !! i = Some d ->
        dimensionsOf metric !! i
        = Some {| Dimension_Name := dim_Name d; Dimension_Value := dim_Value d |})
  /\ dimensionsCell (mm_Dimensions metric) = sentCell (dimensionsOf metric).
Proof.
  rewrite dimensionsOf_map. repeat split.
  - apply length_fmap.
  - intros i d Hd. now rewrite list_lookup_fmap, Hd.
  - rewrite dimensionsCell_foldr, foldr_pairText. unfold sentCell.
    induction (mm_Dimensions metric) as [|d ds IH]; [reflexivity|].
    cbn [fmap list_fmap foldr]. cbn [foldr] in IH. now rewrite IH.
Qed.

End Counts.

(** ** [run] and [main] *)

(** An event that is not among the events of a given list. *)
Ltac no_success_message :=
  let H := fresh "H" in
  intros H;
  repeat (apply elem_of_cons in H as [H|H];
          [first [discriminate H | vm_compute in H; discriminate H]|]);
  apply elem_of_nil in H; exact H.

Section Running.

Variable Sprint : float -> string.
Variable scale : float.
Variable unmarshalConfig : string -> Config * option error.
Variable unmarshalData : string -> PerformanceData * option error.

Lemma loadConfig_trace (h : Host) :
  (loadConfig unmarshalConfig h).2 = [ReadFile "config.yml"].
Proof. unfold loadConfig. destruct (readFile h _); reflexivity. Qed.

Lemma loadData_trace (h : Host) :
  (loadData unmarshalData h).2 = [ReadFile "data.yml"].
Proof. unfold loadData. destruct (readFile h _); reflexivity. Qed.

Lemma resolve_empty (fromFile fromFlag : string) :
  resolve fromFile fromFlag = "" <-> fromFile = "" /\ fromFlag = "".
Proof.
  unfold resolve. destruct (String.eqb_spec fromFile ""); subst; intuition congruence.
Qed.

Lemma optsOf_effective (h : Host) (c : Config) :
  resolve (Region c) (cliRegion h) <> "" ->
  resolve (Profile c) (cliProfile h) <> "" ->
  optsOf (effectiveConfig h c) = effectiveOpts h c.
Proof.
  intros Hr Hp. unfold optsOf, effectiveOpts, effectiveConfig; cbn.
  destruct (String.eqb_spec (resolve (Profile c) (cliProfile h)) ""); [done|].
  destruct (String.eqb_spec (resolve (Region c) (cliRegion h)) ""); [done|].
  reflexivity.
Qed.

(** [run] up to the loading of the data. *)
Lemma run_config (h : Host) (c : Config) :
  (loadConfig unmarshalConfig h).1 = (c, None) ->
  run Sprint scale unmarshalConfig unmarshalData h
  = if String.eqb (resolve (Region c) (cliRegion h)) "" then
      (Some regionNotSet, [ReadFile "config.yml"])
    else if String.eqb (resolve (Profile c) (cliProfile h)) "" then
      (Some profileNotSet, [ReadFile "config.yml"])
    else
      runLoaded Sprint scale unmarshalData h (effectiveConfig h c)
        [ReadFile "config.yml"].
Proof.
  intros Hc. unfold run.
  pose proof (loadConfig_trace h) as Ht.
  destruct (loadConfig unmarshalConfig h) as [[c' err] out].
  cbn in Hc, Ht. injection Hc as -> ->. subst out.
  destruct c as [region profile skip namespace mappings].
  unfold effectiveConfig, resolve, setRegion, setProfile, setSkipPublish; cbn.
  destruct (String.eqb_spec region "") as [->|Hr]; cbn.
  - destruct (String.eqb_spec (cliRegion h) "") as [E|E]; [reflexivity|].
    destruct (String.eqb_spec profile "") as [->|Hp]; cbn.
    + destruct (String.eqb_spec (cliProfile h) ""); [reflexivity|].
      destruct (cliSkipPublish h); reflexivity.
    + destruct (String.eqb_spec profile ""); [done|].
      destruct (cliSkipPublish h); reflexivity.
  - destruct (String.eqb_spec region ""); [done|].
    destruct (String.eqb_spec profile "") as [->|Hp]; cbn.
    + destruct (String.eqb_spec (cliProfile h) ""); [reflexivity|].
      destruct (cliSkipPublish h); reflexivity.
    + destruct (String.eqb_spec profile ""); [done|].
      destruct (cliSkipPublish h); reflexivity.
Qed.

Lemma runLoaded_eq (h : Host) (c : Config) (out : list RunEvent) :
  runLoaded Sprint scale unmarshalData h c out
  = match (loadData unmarshalData h).1 with
    | (_, Some e) => (Some e, out ++ [ReadFile "data.yml"])
    | (data, None) =>
        match loadDefaultConfig h (optsOf c) with
        | Some e =>
            (Some e,
             out ++ [ReadFile "data.yml"; LoadDefaultConfig (optsOf c);
                     Inner (Stdout (awsConfigFailure e))])
        | None =>
            ((publishMetrics Sprint scale (worldOf h (optsOf c)) data c).1,
             out ++ [ReadFile "data.yml"; LoadDefaultConfig (optsOf c)]
             ++ (Inner <$> (publishMetrics Sprint scale (worldOf h (optsOf c)) data c).2))
        end
    end.
Proof.
  unfold runLoaded. pose proof (loadData_trace h) as Ht.
  destruct (loadData unmarshalData h) as [[data [e|]] read]; cbn in Ht; subst read;
    cbn [fst]; [reflexivity|].
  destruct (loadDefaultConfig h (optsOf c)); [reflexivity|].
  destruct (publishMetrics _ _ _ _ _). reflexivity.
Qed.

Lemma runPutCalls_app (tr1 tr2 : list RunEvent) :
  runPutCalls (tr1 ++ tr2) = runPutCalls tr1 ++ runPutCalls tr2.
Proof. apply omap_app. Qed.

Lemma runPutCalls_Inner (tr : list Event) : runPutCalls (Inner <$> tr) = putCalls tr.
Proof.
  induction tr as [|e tr IH]; [reflexivity|].
  rewrite fmap_cons. destruct e; cbn; first [exact IH | f_equal; exact IH].
Qed.

Lemma elem_of_Inner (e : Event) (tr : list Event) : Inner e ∈ Inner <$> tr <-> e ∈ tr.
Proof.
  rewrite list_elem_of_fmap. split; [|eauto].
  intros (e' & [= ->] & H). exact H.
Qed.

Lemma putCalls_at_most_one (w : World) (data : PerformanceData) (config : Config) :
  length (putCalls (publishMetrics Sprint scale w data config).2) <= 1.
Proof.
  rewrite publishMetrics_trace.
  destruct (renderErr w); [cbn; lia|].
  destruct (SkipPublish config); [cbn; lia|].
  rewrite !putCalls_app, (gateEvent_putCalls _ _ (gate_events w)).
  destruct (gate w).1; [|cbn; lia].
  destruct (putMetricData w _); cbn; lia.
Qed.

Lemma putCalls_skipped (w : World) (data : PerformanceData) (config : Config) :
  SkipPublish config = true ->
  putCalls (publishMetrics Sprint scale w data config).2 = [].
Proof.
  intros Hskip. rewrite publishMetrics_trace, Hskip.
  destruct (renderErr w); reflexivity.
Qed.

Lemma run_load_error (h : Host) (c : Config) (e : error) :
  (loadConfig unmarshalConfig h).1 = (c, Some e) ->
  run Sprint scale unmarshalConfig unmarshalData h
  = (Some e, [ReadFile "config.yml"]).
Proof.
  intros Hc. unfold run. pose proof (loadConfig_trace h) as Ht.
  destruct (loadConfig unmarshalConfig h) as [[c' err] out].
  cbn in Hc, Ht. injection Hc as -> ->. now subst out.
Qed.

(** X10 — [run] stops right after reading [config.yml], before [data.yml] is
    read, AWS is configured or anything is printed, when the configuration
    cannot be loaded (with the error of the load), when neither the file nor
    the flag gives a region, and, the region being there, when neither gives
    a profile. *)
Theorem run_stops_at_a_configuration_failure (h : Host) (c : Config) (e : error) :
  ((loadConfig unmarshalConfig h).1 = (c, Some e) ->
   run Sprint scale unmarshalConfig unmarshalData h
   = (Some e, [ReadFile "config.yml"]))
  /\ ((loadConfig unmarshalConfig h).1 = (c, None) ->
      Region c = "" -> cliRegion h = "" ->
      run Sprint scale unmarshalConfig unmarshalData h
      = (Some regionNotSet, [ReadFile "config.yml"]))
  /\ ((loadConfig unmarshalConfig h).1 = (c, None) ->
      resolve (Region c) (cliRegion h) <> "" ->
      Profile c = "" -> cliProfile h = "" ->
      run Sprint scale unmarshalConfig unmarshalData h
      = (Some profileNotSet, [ReadFile "config.yml"])).
Proof.
  repeat split.
  - apply run_load_error.
  - intros Hc Hr Hf. rewrite (run_config _ _ Hc).
    unfold resolve. now rewrite Hr, Hf.
  - intros Hc Hr Hp Hf. rewrite (run_config _ _ Hc).
    destruct (String.eqb_spec (resolve (Region c) (cliRegion h)) ""); [done|].
    unfold resolve. now rewrite Hp, Hf.
Qed.

(** X11 — when [run] loads the AWS configuration, it does so with the
    profile and then the region, each taken from [config.yml] when the file
    has it and from the flag only when the file leaves it empty, and neither
    is empty. *)
Theorem run_prefers_the_file_over_the_flags (h : Host) (opts : list LoadOption) :
  LoadDefaultConfig opts ∈ (run Sprint scale unmarshalConfig unmarshalData h).2 ->
  exists c,
    (loadConfig unmarshalConfig h).1 = (c, None)
    /\ resolve (Profile c) (cliProfile h) <> ""
    /\ resolve (Region c) (cliRegion h) <> ""
    /\ opts = [WithSharedConfigProfile (resolve (Profile c) (cliProfile h));
               WithRegion (resolve (Region c) (cliRegion h))].
Proof.
  destruct ((loadConfig unmarshalConfig h).1) as [c [e|]] eqn:Hc.
  { rewrite (run_load_error _ _ _ Hc). cbn [snd]. intros Hin.
    apply list_elem_of_singleton in Hin. discriminate Hin. }
  rewrite (run_config _ _ Hc).
  destruct (String.eqb_spec (resolve (Region c) (cliRegion h)) "") as [|Hr].
  { cbn [snd]. intros Hin. apply list_elem_of_singleton in Hin. discriminate Hin. }
  destruct (String.eqb_spec (resolve (Profile c) (cliProfile h)) "") as [|Hp].
  { cbn [snd]. intros Hin. apply list_elem_of_singleton in Hin. discriminate Hin. }
  rewrite runLoaded_eq, (optsOf_effective _ _ Hr Hp).
  intros Hin. exists c. repeat split; [exact Hp|exact Hr|].
  assert (Hopts : LoadDefaultConfig opts = LoadDefaultConfig (effectiveOpts h c));
    [|now injection Hopts].
  destruct (loadData unmarshalData h).1 as [data [e|]]; cbn [snd] in Hin.
  - repeat (apply elem_of_cons in Hin as [Hin|Hin]; [discriminate Hin|]).
    now apply elem_of_nil in Hin.
  - destruct (loadDefaultConfig h (effectiveOpts h c)); cbn [snd] in Hin.
    + repeat (apply elem_of_cons in Hin as [Hin|Hin];
              [first [discriminate Hin | exact Hin]|]).
      now apply elem_of_nil in Hin.
    + apply elem_of_cons in Hin as [Hin|Hin]; [discriminate Hin|].
      apply elem_of_cons in Hin as [Hin|Hin]; [discriminate Hin|].
      apply elem_of_cons in Hin as [Hin|Hin]; [exact Hin|].
      apply list_elem_of_fmap in Hin as (e & Hin & _). discriminate Hin.
Qed.

(** X12 — skip-publish holds when the file or the flag sets it: the flag
    can turn it on and cannot turn it off, and in either case the run sends
    no request. *)
Theorem skip_publish_by_file_or_flag (h : Host) (c : Config) :
  (loadConfig unmarshalConfig h).1 = (c, None) ->
  SkipPublish c = true \/ cliSkipPublish h = true ->
  runPutCalls (run Sprint scale unmarshalConfig unmarshalData h).2 = [].
Proof.
  intros Hc Hskip. rewrite (run_config _ _ Hc).
  destruct (String.eqb (resolve (Region c) (cliRegion h)) ""); [reflexivity|].
  destruct (String.eqb (resolve (Profile c) (cliProfile h)) ""); [reflexivity|].
  rewrite runLoaded_eq.
  destruct (loadData unmarshalData h).1 as [data [e|]]; [reflexivity|].
  destruct (loadDefaultConfig h _); [reflexivity|]. cbn [snd].
  rewrite !runPutCalls_app, runPutCalls_Inner, putCalls_skipped; [reflexivity|].
  cbn. destruct Hskip as [-> | ->]; [apply orb_true_r|reflexivity].
Qed.

(** X13 — a failure to load the AWS configuration ends the run, also when
    publishing is skipped: both files have been read, the failure is
    printed, its error is returned, and neither the preview nor a request
    follows. *)
Theorem aws_configuration_failure_ends_the_run
    (h : Host) (c : Config) (data : PerformanceData) (e : error) :
  (loadConfig unmarshalConfig h).1 = (c, None) ->
  resolve (Region c) (cliRegion h) <> "" ->
  resolve (Profile c) (cliProfile h) <> "" ->
  (loadData unmarshalData h).1 = (data, None) ->
  loadDefaultConfig h
    [WithSharedConfigProfile (resolve (Profile c) (cliProfile h));
     WithRegion (resolve (Region c) (cliRegion h))] = Some e ->
  run Sprint scale unmarshalConfig unmarshalData h
  = (Some e,
     [ReadFile "config.yml"; ReadFile "data.yml";
      LoadDefaultConfig
        [WithSharedConfigProfile (resolve (Profile c) (cliProfile h));
         WithRegion (resolve (Region c) (cliRegion h))];
      Inner (Stdout (awsConfigFailure e))]).
Proof.
  intros Hc Hr Hp Hd Haws. rewrite (run_config _ _ Hc).
  destruct (String.eqb_spec (resolve (Region c) (cliRegion h)) ""); [done|].
  destruct (String.eqb_spec (resolve (Profile c) (cliProfile h)) ""); [done|].
  rewrite runLoaded_eq, Hd, (optsOf_effective _ _ Hr Hp).
  unfold effectiveOpts. now rewrite Haws.
Qed.

(** X14 — in every run [config.yml] is read first and at most one request
    is sent; a request is sent only after [data.yml] was read and the AWS
    configuration was loaded without error. *)
Theorem run_sends_at_most_one_request (h : Host) :
  let tr := (run Sprint scale unmarshalConfig unmarshalData h).2 in
  (exists rest, tr = ReadFile "config.yml" :: rest)
  /\ length (runPutCalls tr) <= 1
  /\ (runPutCalls tr <> [] ->
      exists opts rest,
        loadDefaultConfig h opts = None
        /\ tr = [ReadFile "config.yml"; ReadFile "data.yml"; LoadDefaultConfig opts]
                ++ rest).
Proof.
  cbv zeta.
  destruct ((loadConfig unmarshalConfig h).1) as [c [e|]] eqn:Hc.
  { rewrite (run_load_error _ _ _ Hc). cbn. repeat split; eauto; done. }
  rewrite (run_config _ _ Hc).
  destruct (String.eqb (resolve (Region c) (cliRegion h)) "").
  { cbn. repeat split; eauto; done. }
  destruct (String.eqb (resolve (Profile c) (cliProfile h)) "").
  { cbn. repeat split; eauto; done. }
  rewrite runLoaded_eq.
  destruct (loadData unmarshalData h).1 as [data [e|]].
  { cbn. repeat split; eauto; done. }
  destruct (loadDefaultConfig h (optsOf (effectiveConfig h c))) eqn:Haws.
  { cbn. repeat split; eauto; done. }
  cbn [snd]. repeat split.
  - eauto.
  - rewrite !runPutCalls_app, runPutCalls_Inner. cbn [runPutCalls omap app].
    apply putCalls_at_most_one.
  - intros _. eauto.
Qed.

Lemma published_needs_no_error (w : World) (data : PerformanceData) (config : Config) :
  Stdout published ∈ (publishMetrics Sprint scale w data config).2 ->
  (publishMetrics Sprint scale w data config).1 = None.
Proof.
  intros (Hr & Hskip & Hg & Hput)%published_in_trace.
  now rewrite publishMetrics_error, Hr, Hskip, Hg.
Qed.

Lemma request_without_error_is_published
    (w : World) (data : PerformanceData) (config : Config) :
  (publishMetrics Sprint scale w data config).1 = None ->
  putCalls (publishMetrics Sprint scale w data config).2 <> [] ->
  Stdout published ∈ (publishMetrics Sprint scale w data config).2.
Proof.
  rewrite publishMetrics_error, publishMetrics_trace.
  destruct (renderErr w); [discriminate|].
  destruct (SkipPublish config); [intros _ H; now contradict H|].
  rewrite !putCalls_app, (gateEvent_putCalls _ _ (gate_events w)).
  destruct (gate w).1; [|intros _ H; now contradict H].
  intros -> _. rewrite !elem_of_app. right. right. right. left.
Qed.

Lemma run_error_no_success (h : Host) (e : error) :
  (run Sprint scale unmarshalConfig unmarshalData h).1 = Some e ->
  Inner (Stdout published) ∉ (run Sprint scale unmarshalConfig unmarshalData h).2.
Proof.
  destruct ((loadConfig unmarshalConfig h).1) as [c [e'|]] eqn:Hc.
  { rewrite (run_load_error _ _ _ Hc). intros _. cbn [snd]. no_success_message. }
  rewrite (run_config _ _ Hc).
  destruct (String.eqb (resolve (Region c) (cliRegion h)) "").
  { intros _. cbn [snd]. no_success_message. }
  destruct (String.eqb (resolve (Profile c) (cliProfile h)) "").
  { intros _. cbn [snd]. no_success_message. }
  rewrite runLoaded_eq.
  destruct (loadData unmarshalData h).1 as [data [e'|]].
  { intros _. cbn [snd app]. no_success_message. }
  destruct (loadDefaultConfig h (optsOf (effectiveConfig h c))).
  { intros _. cbn [snd app]. no_success_message. }
  cbn [fst snd app]. intros Herr Hin.
  apply elem_of_cons in Hin as [Hin|Hin]; [discriminate Hin|].
  apply elem_of_cons in Hin as [Hin|Hin]; [discriminate Hin|].
  apply elem_of_cons in Hin as [Hin|Hin]; [discriminate Hin|].
  apply elem_of_Inner, published_needs_no_error in Hin. congruence.
Qed.

Lemma run_request_published (h : Host) :
  (run Sprint scale unmarshalConfig unmarshalData h).1 = None ->
  runPutCalls (run Sprint scale unmarshalConfig unmarshalData h).2 <> [] ->
  Inner (Stdout published) ∈ (run Sprint scale unmarshalConfig unmarshalData h).2.
Proof.
  destruct ((loadConfig unmarshalConfig h).1) as [c [e'|]] eqn:Hc.
  { rewrite (run_load_error _ _ _ Hc). discriminate. }
  rewrite (run_config _ _ Hc).
  destruct (String.eqb (resolve (Region c) (cliRegion h)) ""); [discriminate|].
  destruct (String.eqb (resolve (Profile c) (cliProfile h)) ""); [discriminate|].
  rewrite runLoaded_eq.
  destruct (loadData unmarshalData h).1 as [data [e'|]]; [discriminate|].
  destruct (loadDefaultConfig h (optsOf (effectiveConfig h c))); [discriminate|].
  cbn [fst snd]. intros Herr Hcalls.
  rewrite !runPutCalls_app, runPutCalls_Inner in Hcalls. cbn in Hcalls.
  rewrite !elem_of_app. right. right. apply elem_of_Inner.
  now apply request_without_error_is_published.
Qed.

(** X15 — [main] exits with status 0 when [run] returns no error, and then a
    request in the trace comes with the success message; it exits with
    status 1 when [run] returns an error, which is logged last, and then the
    success message was never printed. *)
Theorem main_exit_status (h : Host) :
  let result := run Sprint scale unmarshalConfig unmarshalData h in
  let exit := main Sprint scale unmarshalConfig unmarshalData h in
  (exit.1 = 0%Z /\ result.1 = None /\ exit.2 = result.2
   /\ (runPutCalls exit.2 <> [] -> Inner (Stdout published) ∈ exit.2))
  \/ (exists e, exit.1 = 1%Z /\ result.1 = Some e
                /\ exit.2 = result.2 ++ [LogFatal e]
                /\ Inner (Stdout published) ∉ exit.2).
Proof.
  cbv zeta. unfold main.
  pose proof (run_error_no_success h) as Herr.
  pose proof (run_request_published h) as Hok.
  destruct (run Sprint scale unmarshalConfig unmarshalData h) as [[e|] out];
    cbn [fst snd] in *.
  - right. exists e. repeat split. intros Hin.
    apply elem_of_app in Hin as [Hin|Hin]; [now apply (Herr e)|].
    apply list_elem_of_singleton in Hin. discriminate Hin.
  - left. repeat split. now apply Hok.
Qed.

End Running.

(** ** The further properties at concrete runs *)



Lemma table_has_a_row_per_observed_key_witness :
  length (tableDataOf decimalText current batchWorld strayData exampleConfig) = 3
  /\ [""; decimalText (math.Round (3 * current) / current)%float; ""]
     ∈ tail (tableDataOf decimalText current batchWorld strayData exampleConfig).
Proof.
  pose proof (table_has_a_row_per_observed_key decimalText current batchWorld
                strayData exampleConfig batchWorld_ok) as [H1 H2].
  split; [exact H1|]. exact (H2 "c" 3%float eq_refl eq_refl).
Defined.

Lemma batch_has_a_record_per_mapped_key_witness :
  length (metricDataOf current batchWorld strayData exampleConfig)
  = size (dom strayData ∩ dom (MetricMappings exampleConfig)).
Proof.
  exact (proj1 (batch_has_a_record_per_mapped_key decimalText current batchWorld
                  strayData exampleConfig batchWorld_ok)).
Defined.

Lemma run_stops_at_a_configuration_failure_witness :
  run decimalText current (parsesTo bareConfig) (parsesTo exampleData)
    (host "eu-west-1" "" false batchWorld)
  = (Some profileNotSet, [ReadFile "config.yml"]).
Proof.
  apply (run_stops_at_a_configuration_failure decimalText current
           (parsesTo bareConfig) (parsesTo exampleData)
           (host "eu-west-1" "" false batchWorld) bareConfig "");
    [reflexivity|discriminate|reflexivity|reflexivity].
Defined.

Lemma run_prefers_the_file_over_the_flags_witness :
  exists c,
    (loadConfig (parsesTo exampleConfig) (flagHost false batchWorld)).1 = (c, None)
    /\ resolve (Profile c) "flag-profile" <> ""
    /\ resolve (Region c) "us-east-1" <> ""
    /\ [WithSharedConfigProfile "my-aws-profile"; WithRegion "ap-southeast-2"]
       = [WithSharedConfigProfile (resolve (Profile c) "flag-profile");
          WithRegion (resolve (Region c) "us-east-1")].
Proof.
  apply (run_prefers_the_file_over_the_flags decimalText current
           (parsesTo exampleConfig) (parsesTo exampleData)
           (flagHost false batchWorld)
           [WithSharedConfigProfile "my-aws-profile"; WithRegion "ap-southeast-2"]).
  vm_compute. do 2 apply list_elem_of_further. apply list_elem_of_here.
Defined.

Lemma skip_publish_by_file_or_flag_witness :
  runPutCalls
    (run decimalText current (parsesTo exampleConfig) (parsesTo exampleData)
       (flagHost true batchWorld)).2 = [].
Proof.
  apply (skip_publish_by_file_or_flag decimalText current
           (parsesTo exampleConfig) (parsesTo exampleData)
           (flagHost true batchWorld) exampleConfig eq_refl).
  right. reflexivity.
Defined.

Lemma aws_configuration_failure_ends_the_run_witness :
  run decimalText current (parsesTo exampleConfig) (parsesTo exampleData) offlineHost
  = (Some "no credentials",
     [ReadFile "config.yml"; ReadFile "data.yml";
      LoadDefaultConfig
        [WithSharedConfigProfile (resolve "my-aws-profile" "");
         WithRegion (resolve "ap-southeast-2" "")];
      Inner (Stdout (awsConfigFailure "no credentials"))]).
Proof.
  apply (aws_configuration_failure_ends_the_run decimalText current
           (parsesTo exampleConfig) (parsesTo exampleData) offlineHost
           exampleConfig exampleData "no credentials" eq_refl);
    [discriminate|discriminate|reflexivity|reflexivity].
Defined.

(** ** The earlier version *)

Lemma legacy_fold_appendDatum (w : Legacy.World) (config : Legacy.Config)
    (l : list (string * Z)) (metricData : list MetricDatum) :
  fold_left (Legacy.appendDatum w config) l metricData
  = metricData ++ Legacy.datumsFrom w config (length metricData) l.
Proof.
  revert metricData; induction l as [|[key value] l IH]; intros metricData; simpl.
  - now rewrite app_nil_r.
  - destruct (Legacy.MetricMappings config !! key) as [name|] eqn:E; rewrite IH.
    + rewrite length_app, <- app_assoc; simpl. now rewrite Nat.add_1_r.
    + reflexivity.
Qed.

Lemma legacy_datumsFrom_recordFor (w : Legacy.World) (config : Legacy.Config)
    (i : nat) (l : list (string * Z)) :
  Forall2 (Legacy.recordFor config) (filter (Legacy.mapped config) l)
    (Legacy.datumsFrom w config i l).
Proof.
  revert i; induction l as [|[key value] l IH]; intros i; [constructor|].
  cbn [Legacy.datumsFrom fst snd].
  destruct (Legacy.MetricMappings config !! key) as [name|] eqn:E.
  - rewrite filter_cons_True by (unfold Legacy.mapped; cbn; rewrite E; eauto).
    constructor; [|apply IH].
    exists name. cbn. repeat split. exact E.
  - rewrite filter_cons_False; [apply IH|].
    unfold Legacy.mapped; cbn; rewrite E. apply is_Some_None.
Qed.

(** X16 — in the earlier version too, the batch holds one record for each
    key that is both in the data and in the mappings, and no other: the
    record has the mapped name, the integer converted to [float64], the
    count unit and no dimension. *)
Theorem legacy_batch_has_the_mapped_keys
    (w : Legacy.World) (data : Legacy.PerformanceData) (config : Legacy.Config) :
  Legacy.world_ok w ->
  exists kvs : list (string * Z),
    NoDup kvs.*1
    /\ (forall key v,
          (key, v) ∈ kvs
          <-> data !! key = Some v
              /\ is_Some (Legacy.MetricMappings config !! key))
    /\ Forall2 (Legacy.recordFor config) kvs (Legacy.metricDataOf w data config).
Proof.
  intros Hw. exists (filter (Legacy.mapped config) (Legacy.rangePublish w data)).
  assert (Hin : forall key v,
             (key, v) ∈ Legacy.rangePublish w data <-> data !! key = Some v)
    by (intros key v; rewrite (Hw data); apply elem_of_map_to_list).
  split; [|split].
  - apply (NoDup_fmap_fst _).
    + intros key v1 v2 [_ H1]%list_elem_of_filter [_ H2]%list_elem_of_filter.
      apply Hin in H1, H2. congruence.
    + apply NoDup_filter. eapply NoDup_fmap_1.
      rewrite (Hw data). apply NoDup_fst_map_to_list.
  - intros key v. rewrite list_elem_of_filter, Hin.
    unfold Legacy.mapped; cbn. tauto.
  - unfold Legacy.metricDataOf. rewrite legacy_fold_appendDatum.
    apply legacy_datumsFrom_recordFor.
Qed.

Section LegacyProperties.

Variable SprintData : Legacy.PerformanceData -> string.
Variable unmarshalConfig : string -> Legacy.Config * option error.
Variable unmarshalData : string -> Legacy.PerformanceData * option error.

Lemma legacy_run_eq (h : Legacy.Host) :
  Legacy.run SprintData unmarshalConfig unmarshalData h
  = match (Legacy.loadConfig unmarshalConfig h "config.yml").1 with
    | (_, Some e) => (Some e, [ReadFile "config.yml"])
    | (c, None) =>
        match (Legacy.loadData unmarshalData h "data.yml").1 with
        | (_, Some e) => (Some e, [ReadFile "config.yml"; ReadFile "data.yml"])
        | (data, None) =>
            let opts := Legacy.optsOf c in
            let loaded :=
              [ReadFile "config.yml"; ReadFile "data.yml"; LoadDefaultConfig opts] in
            match Legacy.loadDefaultConfig h opts with
            | Some e => (Some e, loaded ++ [Inner (Stdout (awsConfigFailure e))])
            | None =>
                let sent :=
                  Legacy.publishMetrics SprintData (Legacy.worldOf h opts) data c in
                match sent.1 with
                | Some e => (Some e, loaded ++ (Inner <$> sent.2))
                | None =>
                    (None, loaded ++ (Inner <$> sent.2) ++ [Inner (Stdout published)])
                end
            end
        end
    end.
Proof.
  unfold Legacy.run, Legacy.loadConfig, Legacy.loadData.
  destruct (Legacy.readFile h "config.yml") as [file|e]; [|reflexivity].
  destruct (unmarshalConfig file) as [c [e|]]; [reflexivity|].
  destruct (Legacy.readFile h "data.yml") as [file'|e]; [|reflexivity].
  destruct (unmarshalData file') as [data [e|]]; [reflexivity|].
  cbn [fst snd]. cbv zeta.
  destruct (Legacy.loadDefaultConfig h (Legacy.optsOf c)); [reflexivity|].
  destruct (Legacy.publishMetrics _ _ _ _) as [[e|] sent]; reflexivity.
Qed.

Lemma legacy_publishMetrics_eq
    (w : Legacy.World) (data : Legacy.PerformanceData) (config : Legacy.Config) :
  Legacy.publishMetrics SprintData w data config
  = let metrics := Stdout ("Metrics: " +:+ SprintData data +:+ nl) in
    let input :=
      {| Namespace := Legacy.MetricNamespace config;
         MetricData := Legacy.metricDataOf w data config |} in
    if Legacy.SkipPublish config then (None, [metrics; Stdout Legacy.skipping])
    else (Legacy.putMetricData w input, [metrics; PutMetricDataCall input]).
Proof. unfold Legacy.publishMetrics. destruct (Legacy.SkipPublish config); reflexivity. Qed.

Lemma legacy_published_not_sent
    (w : Legacy.World) (data : Legacy.PerformanceData) (config : Legacy.Config) :
  Stdout published ∉ (Legacy.publishMetrics SprintData w data config).2.
Proof.
  rewrite legacy_publishMetrics_eq. cbv zeta.
  destruct (Legacy.SkipPublish config); cbn [snd]; not_in_trace.
Qed.

(** X17 — the earlier version prints the success message exactly when [run]
    returns no error. *)
Theorem legacy_success_message_iff_no_error (h : Legacy.Host) :
  Inner (Stdout published)
  ∈ (Legacy.run SprintData unmarshalConfig unmarshalData h).2
  <-> (Legacy.run SprintData unmarshalConfig unmarshalData h).1 = None.
Proof.
  rewrite legacy_run_eq.
  destruct (Legacy.loadConfig unmarshalConfig h "config.yml").1 as [c [e|]].
  { cbn [fst snd]. split; [intros H; exfalso; revert H; no_success_message|discriminate]. }
  destruct (Legacy.loadData unmarshalData h "data.yml").1 as [data [e|]].
  { cbn [fst snd]. split; [intros H; exfalso; revert H; no_success_message|discriminate]. }
  cbv zeta. destruct (Legacy.loadDefaultConfig h (Legacy.optsOf c)).
  { cbn [fst snd app]. split; [intros H; exfalso; revert H; no_success_message|discriminate]. }
  pose proof (legacy_published_not_sent (Legacy.worldOf h (Legacy.optsOf c)) data c)
    as Hno.
  destruct (Legacy.publishMetrics _ _ _ _) as [[e|] sent]; cbn [fst snd app] in *.
  - split; [|discriminate]. intros Hin.
    apply elem_of_cons in Hin as [Hin|Hin]; [discriminate Hin|].
    apply elem_of_cons in Hin as [Hin|Hin]; [discriminate Hin|].
    apply elem_of_cons in Hin as [Hin|Hin]; [discriminate Hin|].
    now apply elem_of_Inner in Hin.
  - split; [reflexivity|]. intros _.
    do 3 apply list_elem_of_further. rewrite elem_of_app. right. left.
Qed.

(** X18 — in the earlier version a skipped run reports success: with
    skip-publish set in the file, once both files and the AWS configuration
    are loaded, [run] prints the data, the skip message and then the success
    message, sends no request and returns no error. *)
Theorem legacy_skipped_run_reports_success
    (h : Legacy.Host) (c : Legacy.Config) (data : Legacy.PerformanceData) :
  (Legacy.loadConfig unmarshalConfig h "config.yml").1 = (c, None) ->
  (Legacy.loadData unmarshalData h "data.yml").1 = (data, None) ->
  Legacy.loadDefaultConfig h (Legacy.optsOf c) = None ->
  Legacy.SkipPublish c = true ->
  Legacy.run SprintData unmarshalConfig unmarshalData h
  = (None,
     [ReadFile "config.yml"; ReadFile "data.yml";
      LoadDefaultConfig (Legacy.optsOf c);
      Inner (Stdout ("Metrics: " +:+ SprintData data +:+ nl));
      Inner (Stdout Legacy.skipping);
      Inner (Stdout published)]).
Proof.
  intros Hc Hd Haws Hskip.
  rewrite legacy_run_eq, Hc, Hd. cbv zeta.
  rewrite Haws, legacy_publishMetrics_eq, Hskip. reflexivity.
Qed.

(** X19 — the earlier version publishes without asking: when skip-publish is
    off, once both files and the AWS configuration are loaded, [run] sends
    exactly one request, with the namespace of the file and the whole batch,
    reads nothing from standard input and returns what the remote service
    answers. *)
Theorem legacy_publishes_without_confirmation
    (h : Legacy.Host) (c : Legacy.Config) (data : Legacy.PerformanceData) :
  (Legacy.loadConfig unmarshalConfig h "config.yml").1 = (c, None) ->
  (Legacy.loadData unmarshalData h "data.yml").1 = (data, None) ->
  Legacy.loadDefaultConfig h (Legacy.optsOf c) = None ->
  Legacy.SkipPublish c = false ->
  let w := Legacy.worldOf h (Legacy.optsOf c) in
  let input :=
    {| Namespace := Legacy.MetricNamespace c;
       MetricData := Legacy.metricDataOf w data c |} in
  let result := Legacy.run SprintData unmarshalConfig unmarshalData h in
  runPutCalls result.2 = [input]
  /\ result.1 = Legacy.putMetricData w input
  /\ (Inner StdinRead ∉ result.2).
Proof.
  intros Hc Hd Haws Hskip w input result. subst w input result.
  rewrite legacy_run_eq, Hc, Hd. cbv zeta.
  rewrite Haws, legacy_publishMetrics_eq, Hskip. cbv zeta. cbn [fst snd].
  destruct (Legacy.putMetricData _ _); cbn [fst snd];
    (split; [reflexivity|]; split; [reflexivity|]; no_success_message).
Qed.

End LegacyProperties.

Lemma legacy_quietWorld_ok : Legacy.world_ok Legacy.quietWorld.
Proof. intros data. reflexivity. Qed.

Example legacy_example_batch :
  summary <$> Legacy.metricDataOf Legacy.quietWorld Legacy.exampleData
                (Legacy.exampleConfig false)
  = [("DailySteps", 9000%float, [])].
Proof. vm_compute. reflexivity. Qed.

Lemma legacy_batch_has_the_mapped_keys_witness :
  exists kvs : list (string * Z),
    NoDup kvs.*1
    /\ (forall key v,
          (key, v) ∈ kvs
          <-> Legacy.exampleData !! key = Some v
              /\ is_Some (Legacy.MetricMappings (Legacy.exampleConfig false) !! key))
    /\ Forall2 (Legacy.recordFor (Legacy.exampleConfig false)) kvs
         (Legacy.metricDataOf Legacy.quietWorld Legacy.exampleData
            (Legacy.exampleConfig false)).
Proof.
  exact (legacy_batch_has_the_mapped_keys Legacy.quietWorld Legacy.exampleData
           (Legacy.exampleConfig false) legacy_quietWorld_ok).
Defined.

Lemma legacy_skipped_run_reports_success_witness :
  Legacy.run Legacy.anyText (parsesTo (Legacy.exampleConfig true))
    (parsesTo Legacy.exampleData) Legacy.quietHost
  = (None,
     [ReadFile "config.yml"; ReadFile "data.yml";
      LoadDefaultConfig (Legacy.optsOf (Legacy.exampleConfig true));
      Inner (Stdout ("Metrics: " +:+ Legacy.anyText Legacy.exampleData +:+ nl));
      Inner (Stdout Legacy.skipping);
      Inner (Stdout published)]).
Proof.
  exact (legacy_skipped_run_reports_success Legacy.anyText
           (parsesTo (Legacy.exampleConfig true)) (parsesTo Legacy.exampleData)
           Legacy.quietHost (Legacy.exampleConfig true) Legacy.exampleData
           eq_refl eq_refl eq_refl eq_refl).
Defined.

Lemma legacy_publishes_without_confirmation_witness :
  runPutCalls
    (Legacy.run Legacy.anyText (parsesTo (Legacy.exampleConfig false))
       (parsesTo Legacy.exampleData) Legacy.quietHost).2
  = [{| Namespace := "Personal/Performance";
        MetricData :=
          Legacy.metricDataOf Legacy.quietWorld Legacy.exampleData
            (Legacy.exampleConfig false) |}].
Proof.
  exact (proj1 (legacy_publishes_without_confirmation Legacy.anyText
                  (parsesTo (Legacy.exampleConfig false))
                  (parsesTo Legacy.exampleData) Legacy.quietHost
                  (Legacy.exampleConfig false) Legacy.exampleData
                  eq_refl eq_refl eq_refl eq_refl)).
Defined.
